(** * etcd-starter: the pre-launch version resolver of [starter/starter.go]

    A shallow embedding of package [starter].  The Go code talks to the
    file system, the network, the process environment and finally replaces
    the process image; here

    - every collaborator that lives outside [starter.go] (the [wal] and
      [migrate] decoders, [net/http], [encoding/json], [flag], [os], ...)
      is a field of the record [World];
    - what the code mutates (standard output and the logger, the process
      environment, [os.Args]) is the record [state], threaded through the
      monad [M];
    - [log.Fatalf], a run-time panic and a successful [syscall.Exec] end
      the run and are the three abnormal constructors of [result]. *)

From Stdlib Require Import String Ascii List Lia.
From stdpp Require Import base option list gmap strings.

Set Warnings "-register-all".
Open Scope string_scope.
Open Scope list_scope.

(** ** Go library functions that the program's results depend on *)

Module strings.

(** [strings.HasPrefix]. *)
Fixpoint HasPrefix (s p : string) {struct p} : bool :=
  match p, s with
  | EmptyString, _ => true
  | String _ _, EmptyString => false
  | String a p', String b s' => if Ascii.eqb a b then HasPrefix s' p' else false
  end.

(** Reversal of a string, used to give back the field accumulated while
    scanning. *)
Fixpoint rev_onto (s acc : string) : string :=
  match s with
  | EmptyString => acc
  | String c s' => rev_onto s' (String c acc)
  end.

(** The scan behind [strings.Split s sep] for a non-empty [sep]: the
    leftmost occurrence of [sep] ends the current field, the search goes on
    after it.  [skip] counts the bytes of a separator still to be passed,
    [cur] is the current field, reversed. *)
Fixpoint split_scan (sep s : string) (skip : nat) (cur : string) : list string :=
  match s with
  | EmptyString => [rev_onto cur EmptyString]
  | String c s' =>
      match skip with
      | S k => split_scan sep s' k cur
      | O =>
          if HasPrefix s sep
          then rev_onto cur EmptyString :: split_scan sep s' (String.length sep - 1) EmptyString
          else split_scan sep s' 0 (String c cur)
      end
  end.

(** [explode]: one string per byte (Go cuts at UTF-8 sequences; the two
    agree on ASCII input, and the program never splits on an empty
    separator). *)
Fixpoint explode (s : string) : list string :=
  match s with
  | EmptyString => []
  | String c s' => String c EmptyString :: explode s'
  end.

(** [strings.Split]. *)
Definition Split (s sep : string) : list string :=
  match sep with
  | EmptyString => explode s
  | String _ _ => split_scan sep s 0 EmptyString
  end.

(** The white space of [unicode.IsSpace], as UTF-8 byte sequences:
    the six ASCII characters, U+0085, U+00A0, U+1680, U+2000..U+200A,
    U+2028, U+2029, U+202F, U+205F and U+3000. *)
Definition spaceRunes : list (list nat) :=
  [ [9]; [10]; [11]; [12]; [13]; [32];
    [194; 133]; [194; 160];
    [225; 154; 128];
    [226; 128; 128]; [226; 128; 129]; [226; 128; 130]; [226; 128; 131];
    [226; 128; 132]; [226; 128; 133]; [226; 128; 134]; [226; 128; 135];
    [226; 128; 136]; [226; 128; 137]; [226; 128; 138];
    [226; 128; 168]; [226; 128; 169]; [226; 128; 175];
    [226; 129; 159];
    [227; 128; 128] ].

Fixpoint bytes_prefix (p : list nat) (l : list ascii) : bool :=
  match p, l with
  | [], _ => true
  | _ :: _, [] => false
  | n :: p', c :: l' => if Nat.eqb n (nat_of_ascii c) then bytes_prefix p' l' else false
  end.

(** Size in bytes of the white-space rune that [l] starts with when
    [runes] holds the encodings to look for; [0] when there is none. *)
Fixpoint spaceRuneLen (runes : list (list nat)) (l : list ascii) : nat :=
  match runes with
  | [] => 0
  | r :: runes' => if bytes_prefix r l then length r else spaceRuneLen runes' l
  end.

(** Number of bytes taken by the white-space runes at the head of [l]. *)
Fixpoint spaceSpan (runes : list (list nat)) (l : list ascii) (skip : nat) : nat :=
  match l with
  | [] => 0
  | _ :: l' =>
      match skip with
      | S k => S (spaceSpan runes l' k)
      | O =>
          match spaceRuneLen runes l with
          | O => 0
          | S k => S (spaceSpan runes l' k)
          end
      end
  end.

Definition trimLeft (runes : list (list nat)) (l : list ascii) : list ascii :=
  drop (spaceSpan runes l 0) l.

(** [strings.TrimSpace]: [TrimRightFunc (TrimLeftFunc s IsSpace) IsSpace].
    The right end is trimmed on the reversed bytes, against the reversed
    encodings. *)
Definition TrimSpace (s : string) : string :=
  let l := trimLeft spaceRunes (list_ascii_of_string s) in
  string_of_list_ascii (rev (trimLeft (map (@rev nat) spaceRunes) (rev l))).

(** [strings.Join]. *)
Fixpoint Join (a : list string) (sep : string) : string :=
  match a with
  | [] => EmptyString
  | [x] => x
  | x :: rest => x +:+ sep +:+ Join rest sep
  end.

(** [strings.Contains], as a proposition. *)
Definition Contains (s substr : string) : Prop :=
  ∃ pre post, s = pre +:+ substr +:+ post.

End strings.

Module fmt.

(** [%v] of a [[]string]: the elements between brackets, separated by one
    space. *)
Definition v_strings (a : list string) : string :=
  "[" +:+ strings.Join a " " +:+ "]".

End fmt.

(** ** Data *)

(** [type version string] and its constants. *)
Definition version := string.

Definition internalV1 : version := "1".
Definition internalV2 : version := "2".
Definition internalV2Proxy : version := "2.proxy".
Definition internalUnknown : version := "unknown".

Definition v0_4 : version := "v0.4".
Definition v2_0 : version := "v2.0".
Definition v2_0Proxy : version := "v2.0 proxy".
Definition empty : version := "empty".
Definition unknown : version := "unknown".

Definition v2SpecialFlags : list string :=
  [ "initial-cluster";
    "listen-peer-urls";
    "listen-client-urls";
    "proxy" ].

(** A Go [error], by its message. *)
Definition error := string.

(** The two results of a Go function returning [(T, error)] whose caller
    looks at the value only when the error is [nil]. *)
Inductive res (A : Type) : Type :=
| Ok (a : A)
| Err (e : error).
Arguments Ok {A} a.
Arguments Err {A} e.

(** Modelled from the spec: the classification of a data directory,
    [wal.WalVersion], which is declared outside [starter.go].  The
    constructors are the six constants [checkInternalVersion] switches on:
    the legacy format is [WALv0_4], the current format [WALv2_0] and
    [WALv2_0_1], its proxy variant [WALv2_0Proxy], an absent directory
    [WALNotExist], unrecognized contents [WALUnknown]. *)
Inductive WalVersion : Type :=
| WALUnknown
| WALNotExist
| WALv0_4
| WALv2_0
| WALv2_0Proxy
| WALv2_0_1.

(** [type value struct], the [flag.Value] every flag is registered with. *)
Record value := { isBoolFlag : bool; s : string }.

Definition value_String (v : value) : string := s v.
Definition value_Set (v : value) (str : string) : value * option error :=
  ({| isBoolFlag := isBoolFlag v; s := str |}, None).
Definition value_IsBoolFlag (v : value) : bool := isBoolFlag v.

(** [*flag.FlagSet]: the registered flags by name; [fs !! name] is
    [fs.Lookup(name)], [None] being the [nil] flag. *)
Abbreviation FlagSet := (gmap string value).

(** [TLSInfo], with the three fields [clientTLSInfo] and [peerTLSInfo]
    fill in. *)
Record TLSInfo := { CAFile : string; CertFile : string; KeyFile : string }.

(** [*http.Client]: what distinguishes two clients is the TLS material
    their transport was configured from. *)
Record http_Client := { TLSClientConfig : option TLSInfo }.

(** What [c.Get] hands back: the body, as [ioutil.ReadAll] will read it. *)
Record http_Response := { Body : res string }.

(** Modelled from the spec: the standby marker, [*migrate.StandbyInfo4],
    which is declared outside [starter.go]: a running flag, a list of
    client URLs and an initial-cluster string, that is the field [Running]
    and what the methods [ClientURLs()] and [InitialCluster()] return. *)
Record StandbyInfo4 := {
  Running : bool;
  ClientURLs : list string;
  InitialCluster : string
}.

(** Modelled from the spec: the latest snapshot, [*migrate.Snapshot4],
    declared outside [starter.go]; the inspector reads its raw [State]. *)
Record Snapshot4 := { State : string }.

(** Modelled from the spec: the store a snapshot's state decodes to,
    [migrate.Store4], and its [node], both declared outside [starter.go].
    The fields are those the inspector reads, in
    [st.Root.Children["_etcd"]], [dir.Children["next-internal-version"]] and
    [n.Value]: a node has a [Value string] and [Children map[string]*node];
    a [nil] pointer is [None]. *)
Inductive node : Type :=
  Node { Value : string; Children : gmap string (option node) }.

(** Modelled from the spec: [migrate.Store4], with [Root *node]. *)
Record Store4 := { Root : option node }.

(** Modelled from the spec: an entry of the legacy command log, with the
    two methods the inspector calls on it. *)
Record LogEntry := { GetCommandName : string; GetCommand : string }.

(** Modelled from the spec: a "set"-type command of the legacy log,
    [*migrate.SetCommand], with the fields [Key] and [Value] the inspector
    compares. *)
Record SetCommand := { Key : string; SetValue : string }.

(** Modelled from the spec: the commands [migrate.NewCommand4] builds, a
    set command or one of another type, which the type assertion to a set
    command rejects. *)
Inductive Command : Type :=
| CmdSet (c : SetCommand)
| CmdOther (name : string).

(** [*url.URL]. *)
Record url_URL := { URL_Scheme : string; URL_Host : string; URL_Path : string }.

(** A child of the discovery response, [resp.Node.Nodes]. *)
Record client_Node := { Node_Key : string; Node_Value : string }.

(** ** The collaborators *)

Record World := {
  (* package starter, outside starter.go *)
  Scheme : TLSInfo → string;
  ClientConfig : TLSInfo → option error;
  (* etcdmain, flag, pkg/flags *)
  etcdmain_NewConfig : list (string * bool);
  flag_Parse : FlagSet → list string → FlagSet * option error;
  flags_SetFlagsFromEnv : FlagSet → gmap string string → FlagSet * option error;
  (* path, os, syscall *)
  path_Join : list string → string;
  path_Base : string → string;
  os_Stat : string → option error;
  os_IsNotExist : error → bool;
  syscall_Exec : string → list string → gmap string string → option error;
  (* wal, migrate, encoding/json *)
  wal_DetectVersion : string → res WalVersion;
  migrate_DecodeStandbyInfo4FromFile : string → option StandbyInfo4 * option error;
  migrate_DecodeLatestSnapshot4FromDir : string → res (option Snapshot4);
  json_Unmarshal_Store4 : string → res Store4;
  migrate_DecodeLog4FromFile : string → res (list LogEntry);
  migrate_NewCommand4 : string → string → res Command;
  json_Unmarshal_map : string → res (gmap string string);
  (* net/http, net/url, the etcd client *)
  http_Get : http_Client → string → res http_Response;
  url_Parse : string → res url_URL;
  url_String : url_URL → string;
  client_New : list string → option error;
  client_Get : list string → string → res (list client_Node)
}.

(** [flag.ErrHelp]. *)
Definition flag_ErrHelp : error := "flag: help requested".

(** ** Diagnostics, state and the monad *)

(** One constructor per [Printf] of the source, with its arguments. *)
Inductive diag : Type :=
| D_starting_version (ver : version)
    (* fmt: "etcd-starter: starting etcd version %s\n" *)
| D_detected_standby_info
    (* fmt: "etcd-starter: detected standby_info file. Adding --proxy=on flag to ensure node runs in v2.0 proxy mode.\n" *)
| D_proxy_flag_must_be_added
    (* fmt: "etcd-starter: before removing v0.4 data, --proxy=on flag MUST be added.\n" *)
| D_unhandled_start_version
    (* log.Panicf: "etcd-starter: unhandled start version" *)
| D_starting_with (p : string) (args : list string) (envv : gmap string string)
    (* fmt: "etcd-starter: starting with %s %v with env %v\n" *)
| D_failed_to_execute (p : string) (err : error)
    (* log.Fatalf: "etcd-starter: failed to execute %s: %v" *)
| D_data_dir_not_set
    (* fmt: "etcd-starter: data-dir is not set\n" *)
| D_failed_to_detect (dataDir : string) (err : error)
    (* log.Fatalf: "etcd-starter: failed to detect etcd version in %v: %v" *)
| D_detected_version (dataver : WalVersion) (dataDir : string)
    (* fmt: "etcd-starter: detected etcd version %s in %s\n" *)
| D_failed_decode_standbyInfo (dataDir : string) (err : error)
    (* log.Printf: "etcd-starter: failed to decode standbyInfo in %v: %v" *)
| D_failed_check_through_peers (err : error)
    (* fmt: "etcd-starter: failed to check start version through peers: %v\n" *)
| D_failed_check_in (dataDir : string) (err : error)
    (* log.Printf: "etcd-starter: failed to check start version in %v: %v" *)
| D_failed_peers_from_discovery (discovery : string) (err : error)
    (* fmt: "etcd-starter: failed to get peers from discovery %s: %v\n" *)
| D_unrecognized_contents (dataDir : string)
    (* fmt: "etcd-starter: unrecognized contents in data directory %s\n" *)
| D_unhandled_etcd_version (dataDir : string)
    (* log.Panicf: "etcd-starter: unhandled etcd version in %v" *)
| D_new_client_error (err : error)
    (* fmt: "etcd-starter: new client error: %v\n" *)
| D_failed_get_etcdURL (u : string)
    (* fmt: "etcd-starter: failed to get /etcdURL from %s\n" *)
| D_failed_read_body (u : string)
    (* fmt: "etcd-starter: failed to read body from %s\n" *)
| D_failed_get_version (u : string)
    (* fmt: "etcd-starter: failed to get /version from %s\n" *)
| D_failed_unmarshal_body (b : string) (u : string)
    (* fmt: "etcd-starter: failed to unmarshal body %s from %s\n" *)
| D_unrecognized_internal_version (iv : string) (u : string).
    (* fmt: "etcd-starter: unrecognized internal version %s from %s\n" *)

(** What a Go panic carries: the run-time error of a [nil] dereference,
    named by the expression dereferenced, or the message of
    [log.Panicf]. *)
Inductive panic : Type :=
| NilDereference (expr : string)
| Panicf (d : diag).

(** What the process changes while it runs. *)
Record state := {
  output : list diag;
  environ : gmap string string;
  os_Args : list string
}.

(** How a computation ends: with a value; by [os.Exit] (from
    [log.Fatalf]); with a panic; or replaced by the program [syscall.Exec]
    started, with its path, argument vector and environment. *)
Inductive result (A : Type) : Type :=
| Done (a : A)
| Exit (code : nat)
| Panicked (p : panic)
| Replaced (argv0 : string) (argv : list string) (envv : gmap string string).
Arguments Done {A} a.
Arguments Exit {A} code.
Arguments Panicked {A} p.
Arguments Replaced {A} argv0 argv envv.

Definition M (A : Type) : Type := state → result A * state.

Definition ret {A} (a : A) : M A := λ st, (Done a, st).

Definition bind {A B} (m : M A) (k : A → M B) : M B :=
  λ st,
    match m st with
    | (Done a, st') => k a st'
    | (Exit c, st') => (Exit c, st')
    | (Panicked p, st') => (Panicked p, st')
    | (Replaced p a e, st') => (Replaced p a e, st')
    end.

Notation "'let*' x ':=' m 'in' k" := (bind m (λ x, k))
  (at level 10, x name, m at level 100, k at level 200, only parsing).
Notation "m '>>' k" := (bind m (λ _, k))
  (at level 100, k at level 200, right associativity, only parsing).

(** [fmt.Printf] and [log.Printf]. *)
Definition Printf (d : diag) : M unit :=
  λ st, (Done tt, {| output := output st ++ [d]; environ := environ st; os_Args := os_Args st |}).

(** [log.Fatalf]: the message, then [os.Exit(1)]. *)
Definition log_Fatalf {A} (d : diag) : M A :=
  λ st, (Exit 1, {| output := output st ++ [d]; environ := environ st; os_Args := os_Args st |}).

(** [log.Panicf]: the message, then [panic]. *)
Definition log_Panicf {A} (d : diag) : M A :=
  λ st, (Panicked (Panicf d), {| output := output st ++ [d]; environ := environ st; os_Args := os_Args st |}).

(** The run-time panic of dereferencing a [nil] pointer. *)
Definition nil_dereference {A} (expr : string) : M A :=
  λ st, (Panicked (NilDereference expr), st).

(** [syscall.Environ]. *)
Definition syscall_Environ : M (gmap string string) :=
  λ st, (Done (environ st), st).

(** [osutil.Unsetenv]. *)
Definition osutil_Unsetenv (key : string) : M unit :=
  λ st, (Done tt, {| output := output st; environ := delete key (environ st); os_Args := os_Args st |}).

(** [os.Args = append(os.Args, extra...)]. *)
Definition append_os_Args (extra : list string) : M unit :=
  λ st, (Done tt, {| output := output st; environ := environ st; os_Args := os_Args st ++ extra |}).

(** [syscall.Exec]: on success the process is replaced and nothing of the
    caller runs any more; on failure the error comes back. *)
Definition Exec_or_error (w : World) (argv0 : string) (argv : list string)
    (envv : gmap string string) : M error :=
  λ st,
    match syscall_Exec w argv0 argv envv with
    | None => (Replaced argv0 argv envv, st)
    | Some err => (Done err, st)
    end.

(** ** The program *)

Section starter.

Variable w : World.

(** [fs.Lookup(name).Value.String()]; [Lookup] gives [nil] for a flag
    that is not registered. *)
Definition Lookup_Value_String (fs : FlagSet) (name : string) : M string :=
  match fs !! name with
  | Some v => ret (value_String v)
  | None => nil_dereference ("fs.Lookup(" +:+ name +:+ ")")
  end.

Definition snapDir4 (dataDir : string) : string :=
  path_Join w [dataDir; "snapshot"].

Definition logFile4 (dataDir : string) : string :=
  path_Join w [dataDir; "log"].

Definition standbyInfo4 (dataDir : string) : string :=
  path_Join w [dataDir; "standby_info"].

(** [for i := range trimmed { trimmed[i] = strings.TrimSpace(trimmed[i]) }] *)
Definition trimSplit (str sep : string) : list string :=
  let trimmed := strings.Split str sep in
  foldl (λ trimmed i,
           match trimmed !! i with
           | Some x => <[i := strings.TrimSpace x]> trimmed
           | None => trimmed
           end)
        trimmed (seq 0 (length trimmed)).

(** [for i, p := range peers { peers[i] = tls.Scheme() + "://" + p }] *)
Definition getPeersFromPeersFlag (str : string) (tls : TLSInfo) : list string :=
  let peers := trimSplit str "," in
  foldl (λ peers i,
           match peers !! i with
           | Some p => <[i := Scheme w tls +:+ "://" +:+ p]> peers
           | None => peers
           end)
        peers (seq 0 (length peers)).

Definition newDefaultClient (tls : TLSInfo) : res http_Client :=
  if String.eqb (Scheme w tls) "https" then
    match ClientConfig w tls with
    | Some err => Err err
    | None => Ok {| TLSClientConfig := Some tls |}
    end
  else Ok {| TLSClientConfig := None |}.

(** The loop of [getClientURLsByPeerURLs]; [urls] is the slice built so
    far. *)
Fixpoint getClientURLsByPeerURLs_loop (c : http_Client) (peers urls : list string)
    : M (list string) :=
  match peers with
  | [] => ret urls
  | u :: peers' =>
      match http_Get w c (u +:+ "/etcdURL") with
      | Err _ =>
          Printf (D_failed_get_etcdURL u) >>
          getClientURLsByPeerURLs_loop c peers' urls
      | Ok resp =>
          match Body resp with
          | Err _ =>
              Printf (D_failed_read_body u) >>
              getClientURLsByPeerURLs_loop c peers' urls
          | Ok b => getClientURLsByPeerURLs_loop c peers' (urls ++ [b])
          end
      end
  end.

Definition getClientURLsByPeerURLs (peers : list string) (tls : TLSInfo)
    : M (list string) :=
  match newDefaultClient tls with
  | Err err => Printf (D_new_client_error err) >> ret []
  | Ok c => getClientURLsByPeerURLs_loop c peers []
  end.

(** The loop of [checkInternalVersionByClientURLs] over the candidates
    still to try; [urls] is the whole slice, for the final error. *)
Fixpoint checkInternalVersionByClientURLs_loop (c : http_Client)
    (urls rest : list string) : M (version * option error) :=
  match rest with
  | [] =>
      ret (internalUnknown,
           Some ("failed to get version from urls " +:+ fmt.v_strings urls))
  | u :: rest' =>
      match http_Get w c (u +:+ "/version") with
      | Err _ =>
          Printf (D_failed_get_version u) >>
          checkInternalVersionByClientURLs_loop c urls rest'
      | Ok resp =>
          match Body resp with
          | Err _ =>
              Printf (D_failed_read_body u) >>
              checkInternalVersionByClientURLs_loop c urls rest'
          | Ok b =>
              match json_Unmarshal_map w b with
              | Err _ =>
                  Printf (D_failed_unmarshal_body b u) >>
                  checkInternalVersionByClientURLs_loop c urls rest'
              | Ok m =>
                  let iv := default "" (m !! "internalVersion") in
                  if String.eqb iv "1" then ret (internalV1, None)
                  else if String.eqb iv "2" then ret (internalV2, None)
                  else
                    Printf (D_unrecognized_internal_version iv u) >>
                    checkInternalVersionByClientURLs_loop c urls rest'
              end
          end
      end
  end.

Definition checkInternalVersionByClientURLs (urls : list string) (tls : TLSInfo)
    : M (version * option error) :=
  match newDefaultClient tls with
  | Err err => ret (internalUnknown, Some err)
  | Ok c => checkInternalVersionByClientURLs_loop c urls urls
  end.

(** The loop of [getPeersFromDiscoveryURL] over [resp.Node.Nodes]. *)
Fixpoint getPeersFromDiscoveryURL_loop (nodes : list client_Node) (peers : list string)
    : list string :=
  match nodes with
  | [] => peers
  | n :: nodes' =>
      let g := path_Base w (Node_Key n) in
      if String.eqb g "_config" || String.eqb g "_state"
      then getPeersFromDiscoveryURL_loop nodes' peers
      else getPeersFromDiscoveryURL_loop nodes' (peers ++ [Node_Value n])
  end.

(** The request runs under [client.DefaultRequestTimeout]; a request
    that times out is one of the errors of [client_Get]. *)
Definition getPeersFromDiscoveryURL (discoverURL : string) : res (list string) :=
  if String.eqb discoverURL "" then Ok []
  else
    match url_Parse w discoverURL with
    | Err err => Err err
    | Ok u =>
        let token := URL_Path u in
        let u := {| URL_Scheme := URL_Scheme u; URL_Host := URL_Host u; URL_Path := "" |} in
        let endpoints := [url_String w u] in
        match client_New w endpoints with
        | Some err => Err err
        | None =>
            match client_Get w endpoints token with
            | Err err => Err err
            | Ok nodes => Ok (getPeersFromDiscoveryURL_loop nodes [])
            end
        end
    end.

(** The loop of [checkInternalVersionByDataDir4] over the log entries. *)
Fixpoint checkInternalVersionByDataDir4_loop (ents4 : list LogEntry)
    : version * option error :=
  match ents4 with
  | [] => (internalV1, None)
  | e :: ents4' =>
      match migrate_NewCommand4 w (GetCommandName e) (GetCommand e) with
      | Err err => (internalUnknown, Some err)
      | Ok (CmdOther _) => checkInternalVersionByDataDir4_loop ents4'
      | Ok (CmdSet setcmd) =>
          if String.eqb (Key setcmd) "/_etcd/next-internal-version"
             && String.eqb (SetValue setcmd) "2"
          then (internalV2, None)
          else checkInternalVersionByDataDir4_loop ents4'
      end
  end.

(** The second half of [checkInternalVersionByDataDir4]: the v0.4 log. *)
Definition checkInternalVersionByDataDir4_log (dataDir : string)
    : M (version * option error) :=
  match migrate_DecodeLog4FromFile w (logFile4 dataDir) with
  | Err err => ret (internalUnknown, Some err)
  | Ok ents4 => ret (checkInternalVersionByDataDir4_loop ents4)
  end.

Definition checkInternalVersionByDataDir4 (dataDir : string)
    : M (version * option error) :=
  match migrate_DecodeLatestSnapshot4FromDir w (snapDir4 dataDir) with
  | Err err => ret (internalUnknown, Some err)
  | Ok None => checkInternalVersionByDataDir4_log dataDir
  | Ok (Some snap4) =>
      match json_Unmarshal_Store4 w (State snap4) with
      | Err err => ret (internalUnknown, Some err)
      | Ok st =>
          match Root st with
          | None => nil_dereference "st.Root"
          | Some root =>
              (* dir := st.Root.Children["_etcd"] *)
              match default None (Children root !! "_etcd") with
              | None => nil_dereference "dir"
              | Some dir =>
                  (* n, ok := dir.Children["next-internal-version"] *)
                  match Children dir !! "next-internal-version" with
                  | None => checkInternalVersionByDataDir4_log dataDir
                  | Some None => nil_dereference "n"
                  | Some (Some n) =>
                      if String.eqb (Value n) "2" then ret (internalV2, None)
                      else checkInternalVersionByDataDir4_log dataDir
                  end
              end
          end
      end
  end.

Definition clientTLSInfo (fs : FlagSet) : M TLSInfo :=
  let* ca := Lookup_Value_String fs "ca-file" in
  let* cert := Lookup_Value_String fs "cert-file" in
  let* key := Lookup_Value_String fs "key-file" in
  ret {| CAFile := ca; CertFile := cert; KeyFile := key |}.

Definition peerTLSInfo (fs : FlagSet) : M TLSInfo :=
  let* ca := Lookup_Value_String fs "peer-ca-file" in
  let* cert := Lookup_Value_String fs "peer-cert-file" in
  let* key := Lookup_Value_String fs "peer-key-file" in
  ret {| CAFile := ca; CertFile := cert; KeyFile := key |}.

(** The first loop of [checkInternalVersion]: is one of the flags
    [names] set? *)
Fixpoint checkInternalVersion_flags (fs : FlagSet) (names : list string) : M bool :=
  match names with
  | [] => ret false
  | name :: names' =>
      let* v := Lookup_Value_String fs name in
      if String.eqb v "" then checkInternalVersion_flags fs names' else ret true
  end.

(** [case wal.WALv0_4] of [checkInternalVersion], once the standby
    marker is read: the part under [if inStandbyMode]. *)
Definition checkInternalVersion_standby (fs : FlagSet) (standbyInfo : StandbyInfo4)
    : M version :=
  let* tls := clientTLSInfo fs in
  let* r := checkInternalVersionByClientURLs (ClientURLs standbyInfo) tls in
  match r with
  | (_, Some err) =>
      Printf (D_failed_check_through_peers err) >> ret internalV1
  | (ver, None) =>
      if String.eqb ver internalV2 then
        osutil_Unsetenv "ETCD_DISCOVERY" >>
        append_os_Args ["-initial-cluster"; InitialCluster standbyInfo] >>
        ret internalV2Proxy
      else ret ver
  end.

(** The part after it: the snapshot and the log. *)
Definition checkInternalVersion_dataDir4 (dataDir : string) : M version :=
  let* r := checkInternalVersionByDataDir4 dataDir in
  match r with
  | (_, Some err) => Printf (D_failed_check_in dataDir err) >> ret internalV1
  | (ver, None) => ret ver
  end.

(** [case wal.WALv0_4] of [checkInternalVersion]. *)
Definition checkInternalVersion_v0_4 (fs : FlagSet) (dataDir : string) : M version :=
  let '(standbyInfo, err) := migrate_DecodeStandbyInfo4FromFile w (standbyInfo4 dataDir) in
  let decoded :=
    (* inStandbyMode := standbyInfo != nil && standbyInfo.Running *)
    match standbyInfo with
    | Some si =>
        if Running si then checkInternalVersion_standby fs si
        else checkInternalVersion_dataDir4 dataDir
    | None => checkInternalVersion_dataDir4 dataDir
    end in
  match err with
  | Some e =>
      (* err != nil && !os.IsNotExist(err) *)
      if negb (os_IsNotExist w e) then
        Printf (D_failed_decode_standbyInfo dataDir e) >> ret internalV1
      else decoded
  | None => decoded
  end.

(** [case wal.WALNotExist] of [checkInternalVersion]. *)
Definition checkInternalVersion_notExist (fs : FlagSet) : M version :=
  let* discovery := Lookup_Value_String fs "discovery" in
  let r := getPeersFromDiscoveryURL discovery in
  let* dpeers :=
    match r with
    | Err err => Printf (D_failed_peers_from_discovery discovery err) >> ret []
    | Ok dpeers => ret dpeers
    end in
  let* peerStr := Lookup_Value_String fs "peers" in
  let* ptls := peerTLSInfo fs in
  let ppeers := getPeersFromPeersFlag peerStr ptls in
  let* ptls := peerTLSInfo fs in
  let* urls := getClientURLsByPeerURLs (dpeers ++ ppeers) ptls in
  let* ctls := clientTLSInfo fs in
  let* r := checkInternalVersionByClientURLs urls ctls in
  match r with
  | (_, Some err) => Printf (D_failed_check_through_peers err) >> ret internalV2
  | (ver, None) => ret ver
  end.

(** The [switch] covers the six constants of [wal.WalVersion], so the
    [log.Panicf] after it ("never reach here") has no case here. *)
Definition checkInternalVersion (fs : FlagSet) : M version :=
  let* special := checkInternalVersion_flags fs v2SpecialFlags in
  if special then ret internalV2
  else
    let* dataDir := Lookup_Value_String fs "data-dir" in
    if String.eqb dataDir "" then
      Printf D_data_dir_not_set >> ret internalV2
    else
      match wal_DetectVersion w dataDir with
      | Err err => log_Fatalf (D_failed_to_detect dataDir err)
      | Ok dataver =>
          Printf (D_detected_version dataver dataDir) >>
          match dataver with
          | WALv2_0 => ret internalV2
          | WALv2_0_1 => ret internalV2
          | WALv2_0Proxy => ret internalV2Proxy
          | WALv0_4 => checkInternalVersion_v0_4 fs dataDir
          | WALNotExist => checkInternalVersion_notExist fs
          | WALUnknown =>
              Printf (D_unrecognized_contents dataDir) >> ret internalV2
          end
      end.

(** [fs.Var(&value{isBoolFlag: isBoolFlag}, f.Name, "")] for every flag
    of [etcdmain.NewConfig()], then the command line, then the
    environment. *)
Definition parseConfig (args : list string) : M (res FlagSet) :=
  let fs : FlagSet :=
    foldl (λ (fs : FlagSet) f, <[f.1 := {| isBoolFlag := f.2; s := "" |}]> fs)
          ∅ (etcdmain_NewConfig w) in
  let '(fs, err) := flag_Parse w fs args in
  let fromEnv : M (res FlagSet) :=
    let* envv := syscall_Environ in
    let '(fs, err) := flags_SetFlagsFromEnv w fs envv in
    match err with
    | Some e => ret (Err e)
    | None => ret (Ok fs)
    end in
  match err with
  | Some e =>
      (* err != nil && err != flag.ErrHelp *)
      if negb (String.eqb e flag_ErrHelp) then ret (Err e) else fromEnv
  | None => fromEnv
  end.

(** The [switch ver] of [StartDesiredVersion]: the executable and the
    arguments to start it with. *)
Definition StartDesiredVersion_switch (binDir : string) (args : list string)
    (fs : FlagSet) (ver : version) : M (string * list string) :=
  if String.eqb ver internalV1 then ret (path_Join w [binDir; "1"; "etcd"], args)
  else if String.eqb ver internalV2 then ret (path_Join w [binDir; "2"; "etcd"], args)
  else if String.eqb ver internalV2Proxy then
    let p := path_Join w [binDir; "2"; "etcd"] in
    let* dataDir := Lookup_Value_String fs "data-dir" in
    match os_Stat w (standbyInfo4 dataDir) with
    | Some _ =>
        Printf D_detected_standby_info >>
        Printf D_proxy_flag_must_be_added
    | None => ret tt
    end >>
    (* append proxy flag to args to trigger proxy mode *)
    ret (p, args ++ ["-proxy=on"])
  else log_Panicf D_unhandled_start_version.

(** [args] is the slice the caller passed, a value of its own: appending
    to [os.Args] neither lengthens it nor changes its elements, and
    [os.Args] itself is not read here. *)
Definition StartDesiredVersion (binDir : string) (args : list string) : M unit :=
  let* r := parseConfig args in
  match r with
  | Err _ => ret tt
  | Ok fs =>
      let* ver := checkInternalVersion fs in
      Printf (D_starting_version ver) >>
      let* pa := StartDesiredVersion_switch binDir args fs ver in
      let p := pa.1 in
      let args := pa.2 in
      let* envv := syscall_Environ in
      Printf (D_starting_with p args envv) >>
      let* envv := syscall_Environ in
      let* err := Exec_or_error w p (p :: args) envv in
      log_Fatalf (D_failed_to_execute p err)
  end.

End starter.

(** ** Vocabulary of the statements *)

(** The value of a flag, [""] when it is not registered. *)
Definition flagValue (fs : FlagSet) (name : string) : string :=
  default "" (value_String <$> fs !! name).

(** The flags the resolver looks up. *)
Definition configKeys : list string :=
  v2SpecialFlags ++
  [ "data-dir"; "discovery"; "peers";
    "ca-file"; "cert-file"; "key-file";
    "peer-ca-file"; "peer-cert-file"; "peer-key-file" ].

(** A parsed configuration registers every flag the resolver looks up
    ([etcdmain.NewConfig()] declares them all), so that no [Lookup] is
    [nil]. *)
Definition parsedConfig (fs : FlagSet) : Prop :=
  Forall (λ name, is_Some (fs !! name)) configKeys.

(** At least one of the v2-only flags has a value. *)
Definition v2FlagSet (fs : FlagSet) : Prop :=
  Exists (λ name, flagValue fs name ≠ "") v2SpecialFlags.

(** None of them has. *)
Definition noV2Flag (fs : FlagSet) : Prop :=
  Forall (λ name, flagValue fs name = "") v2SpecialFlags.

(** [with_output st ds]: the state after the diagnostics [ds]. *)
Definition with_output (st : state) (ds : list diag) : state :=
  {| output := output st ++ ds; environ := environ st; os_Args := os_Args st |}.

(** A candidate of the peer probe that gives no answer, with the
    diagnostic that reports it: the request fails, the body cannot be read,
    the body is not a JSON object of strings, or its [internalVersion] is
    neither ["1"] nor ["2"]. *)
Inductive skipped (w : World) (c : http_Client) (u : string) : diag → Prop :=
| skipped_get err :
    http_Get w c (u +:+ "/version") = Err err →
    skipped w c u (D_failed_get_version u)
| skipped_read err :
    http_Get w c (u +:+ "/version") = Ok {| Body := Err err |} →
    skipped w c u (D_failed_read_body u)
| skipped_unmarshal b err :
    http_Get w c (u +:+ "/version") = Ok {| Body := Ok b |} →
    json_Unmarshal_map w b = Err err →
    skipped w c u (D_failed_unmarshal_body b u)
| skipped_unrecognized b m iv :
    http_Get w c (u +:+ "/version") = Ok {| Body := Ok b |} →
    json_Unmarshal_map w b = Ok m →
    default "" (m !! "internalVersion") = iv →
    iv ≠ "1" →
    iv ≠ "2" →
    skipped w c u (D_unrecognized_internal_version iv u).

(** A candidate whose [/version] answer carries the [internalVersion]
    [iv]. *)
Definition reports (w : World) (c : http_Client) (u iv : string) : Prop :=
  ∃ b m,
    http_Get w c (u +:+ "/version") = Ok {| Body := Ok b |} ∧
    json_Unmarshal_map w b = Ok m ∧
    m !! "internalVersion" = Some iv.

(** The legacy directory has no running standby marker: the marker file
    is absent or read without error, and no marker says [Running]. *)
Definition noRunningStandby (w : World) (dataDir : string) : Prop :=
  ∃ standbyInfo err,
    migrate_DecodeStandbyInfo4FromFile w (standbyInfo4 w dataDir) = (standbyInfo, err) ∧
    (∀ e, err = Some e → os_IsNotExist w e = true) ∧
    (∀ si, standbyInfo = Some si → Running si = false).

(** The legacy directory has a standby marker that says [Running]. *)
Definition runningStandby (w : World) (dataDir : string) (si : StandbyInfo4) : Prop :=
  ∃ err,
    migrate_DecodeStandbyInfo4FromFile w (standbyInfo4 w dataDir) = (Some si, err) ∧
    (∀ e, err = Some e → os_IsNotExist w e = true) ∧
    Running si = true.

(** The [_etcd] directory of a decoded store, when its root has one. *)
Definition etcdDir (st : Store4) : option node :=
  root ← Root st; default None (Children root !! "_etcd").

(** The latest snapshot of the directory decodes to the store [st]. *)
Definition snapshotStore (w : World) (dataDir : string) (st : Store4) : Prop :=
  ∃ snap4,
    migrate_DecodeLatestSnapshot4FromDir w (snapDir4 w dataDir) = Ok (Some snap4) ∧
    json_Unmarshal_Store4 w (State snap4) = Ok st.

(** The store holds [_etcd/next-internal-version] with the value [v]. *)
Definition storeNextInternalVersion (st : Store4) (v : string) : Prop :=
  ∃ dir n,
    etcdDir st = Some dir ∧
    Children dir !! "next-internal-version" = Some (Some n) ∧
    Value n = v.

(** What the snapshot stage of the inspector can find, on a store whose
    root has the [_etcd] directory. *)
Inductive snapshotFinding : Type :=
| SnapshotMigrated
| SnapshotSilent
| SnapshotError (err : error).

Inductive snapshotStage (w : World) (dataDir : string) : snapshotFinding → Prop :=
| snapshot_dir_error err :
    migrate_DecodeLatestSnapshot4FromDir w (snapDir4 w dataDir) = Err err →
    snapshotStage w dataDir (SnapshotError err)
| snapshot_state_error snap4 err :
    migrate_DecodeLatestSnapshot4FromDir w (snapDir4 w dataDir) = Ok (Some snap4) →
    json_Unmarshal_Store4 w (State snap4) = Err err →
    snapshotStage w dataDir (SnapshotError err)
| snapshot_none :
    migrate_DecodeLatestSnapshot4FromDir w (snapDir4 w dataDir) = Ok None →
    snapshotStage w dataDir SnapshotSilent
| snapshot_no_entry st dir :
    snapshotStore w dataDir st →
    etcdDir st = Some dir →
    Children dir !! "next-internal-version" = None →
    snapshotStage w dataDir SnapshotSilent
| snapshot_other_value st v :
    snapshotStore w dataDir st →
    storeNextInternalVersion st v →
    v ≠ "2" →
    snapshotStage w dataDir SnapshotSilent
| snapshot_migrated st :
    snapshotStore w dataDir st →
    storeNextInternalVersion st "2" →
    snapshotStage w dataDir SnapshotMigrated.

(** The log entry is the set command of [/_etcd/next-internal-version] to
    ["2"]. *)
Definition migrationEntry (w : World) (e : LogEntry) : Prop :=
  ∃ setcmd,
    migrate_NewCommand4 w (GetCommandName e) (GetCommand e) = Ok (CmdSet setcmd) ∧
    Key setcmd = "/_etcd/next-internal-version" ∧ SetValue setcmd = "2".

(** The log entry decodes to some other command. *)
Definition plainEntry (w : World) (e : LogEntry) : Prop :=
  ∃ cmd,
    migrate_NewCommand4 w (GetCommandName e) (GetCommand e) = Ok cmd ∧
    match cmd with
    | CmdSet setcmd =>
        ¬ (Key setcmd = "/_etcd/next-internal-version" ∧ SetValue setcmd = "2")
    | CmdOther _ => True
    end.

(** The log entry does not decode. *)
Definition brokenEntry (w : World) (e : LogEntry) (err : error) : Prop :=
  migrate_NewCommand4 w (GetCommandName e) (GetCommand e) = Err err.

(** What the log stage of the inspector can find; the entries are read in
    order and the first one that is the migration entry, or broken,
    decides. *)
Inductive logFinding : Type :=
| LogMigrated
| LogClean
| LogError (err : error).

Inductive logStage (w : World) (dataDir : string) : logFinding → Prop :=
| log_file_error err :
    migrate_DecodeLog4FromFile w (logFile4 w dataDir) = Err err →
    logStage w dataDir (LogError err)
| log_entry_error before e after err :
    migrate_DecodeLog4FromFile w (logFile4 w dataDir) = Ok (before ++ e :: after) →
    Forall (plainEntry w) before →
    brokenEntry w e err →
    logStage w dataDir (LogError err)
| log_migrated before e after :
    migrate_DecodeLog4FromFile w (logFile4 w dataDir) = Ok (before ++ e :: after) →
    Forall (plainEntry w) before →
    migrationEntry w e →
    logStage w dataDir LogMigrated
| log_clean ents4 :
    migrate_DecodeLog4FromFile w (logFile4 w dataDir) = Ok ents4 →
    Forall (plainEntry w) ents4 →
    logStage w dataDir LogClean.

(** The verdict of the inspector that the two findings add up to. *)
Definition inspectorVerdict (sf : snapshotFinding) (lf : logFinding)
    : version * option error :=
  match sf with
  | SnapshotError err => (internalUnknown, Some err)
  | SnapshotMigrated => (internalV2, None)
  | SnapshotSilent =>
      match lf with
      | LogError err => (internalUnknown, Some err)
      | LogMigrated => (internalV2, None)
      | LogClean => (internalV1, None)
      end
  end.

(** The classification of the data directory is reached and fails. *)
Definition classificationFails (w : World) (fs : FlagSet) (err : error) : Prop :=
  noV2Flag fs ∧
  flagValue fs "data-dir" ≠ "" ∧
  wal_DetectVersion w (flagValue fs "data-dir") = Err err.

(** The TLS material of the client side, as [clientTLSInfo] reads it. *)
Definition clientTLS (fs : FlagSet) : TLSInfo :=
  {| CAFile := flagValue fs "ca-file";
     CertFile := flagValue fs "cert-file";
     KeyFile := flagValue fs "key-file" |}.

(** The versions [StartDesiredVersion] has an executable for. *)
Definition startable (ver : version) : Prop :=
  ver ∈ [internalV1; internalV2; internalV2Proxy].

(** The precondition of the snapshot stage: a snapshot that decodes has a
    root, the root has an [_etcd] directory, and the entry
    [next-internal-version], if there is one, is a node. *)
Definition snapshotShape (w : World) (dataDir : string) : Prop :=
  ∀ st, snapshotStore w dataDir st →
    ∃ dir, etcdDir st = Some dir ∧
           Children dir !! "next-internal-version" ≠ Some None.

(** The log of the directory holds the migration entry. *)
Definition logHasMigration (w : World) (dataDir : string) : Prop :=
  ∃ ents4 e,
    migrate_DecodeLog4FromFile w (logFile4 w dataDir) = Ok ents4 ∧
    e ∈ ents4 ∧ migrationEntry w e.

(** Something of the directory does not decode: the snapshot, its state,
    the log or one of its entries. *)
Definition decodeError (w : World) (dataDir : string) : Prop :=
  (∃ err, migrate_DecodeLatestSnapshot4FromDir w (snapDir4 w dataDir) = Err err) ∨
  (∃ snap4 err,
     migrate_DecodeLatestSnapshot4FromDir w (snapDir4 w dataDir) = Ok (Some snap4) ∧
     json_Unmarshal_Store4 w (State snap4) = Err err) ∨
  (∃ err, migrate_DecodeLog4FromFile w (logFile4 w dataDir) = Err err) ∨
  (∃ ents4 e err,
     migrate_DecodeLog4FromFile w (logFile4 w dataDir) = Ok ents4 ∧
     e ∈ ents4 ∧ brokenEntry w e err).

(** The TLS material of the peer side, as [peerTLSInfo] reads it. *)
Definition peerTLS (fs : FlagSet) : TLSInfo :=
  {| CAFile := flagValue fs "peer-ca-file";
     CertFile := flagValue fs "peer-cert-file";
     KeyFile := flagValue fs "peer-key-file" |}.

(** The peers the resolver asks when there is no data directory: those of
    the discovery service, when it answers, then those of the peers
    flag. *)
Definition candidatePeers (w : World) (fs : FlagSet) : list string :=
  match getPeersFromDiscoveryURL w (flagValue fs "discovery") with
  | Ok dpeers => dpeers
  | Err _ => []
  end ++ getPeersFromPeersFlag w (flagValue fs "peers") (peerTLS fs).

(** The client URL a peer gives: the body of its [/etcdURL] answer, when
    the request succeeds and the body can be read. *)
Definition etcdURL (w : World) (c : http_Client) (u : string) : option string :=
  match http_Get w c (u +:+ "/etcdURL") with
  | Ok resp => match Body resp with Ok b => Some b | Err _ => None end
  | Err _ => None
  end.

(** The diagnostic about a peer that gives none. *)
Definition etcdURL_failure (w : World) (c : http_Client) (u : string) : option diag :=
  match http_Get w c (u +:+ "/etcdURL") with
  | Ok resp => match Body resp with Ok _ => None | Err _ => Some (D_failed_read_body u) end
  | Err _ => Some (D_failed_get_etcdURL u)
  end.

(** The candidates of the probe when there is no data directory: the
    client URLs the peers gave, in the order of the peers. *)
Definition learntClientURLs (w : World) (fs : FlagSet) : list string :=
  match newDefaultClient w (peerTLS fs) with
  | Ok pc => omap (etcdURL w pc) (candidatePeers w fs)
  | Err _ => []
  end.

(** The diagnostics written while they are collected. *)
Definition learningDiagnostics (w : World) (fs : FlagSet) : list diag :=
  match getPeersFromDiscoveryURL w (flagValue fs "discovery") with
  | Ok _ => []
  | Err err => [D_failed_peers_from_discovery (flagValue fs "discovery") err]
  end ++
  match newDefaultClient w (peerTLS fs) with
  | Ok pc => omap (etcdURL_failure w pc) (candidatePeers w fs)
  | Err err => [D_new_client_error err]
  end.

(** Number of commas in a string. *)
Fixpoint commas (str : string) : nat :=
  match str with
  | EmptyString => 0
  | String c str' => (if Ascii.eqb "," c then 1 else 0) + commas str'
  end.

(** ** Concrete configurations and worlds

    Small instances of the collaborators, on which the program is run in
    the examples below. *)

Module Examples.

(** The flags of a configuration, [proxy] being the boolean one. *)
Definition flags : list (string * bool) :=
  map (λ name, (name, String.eqb name "proxy")) ("name" :: configKeys).

(** A command line of [-name=value] arguments. *)
Definition Parse (fs : FlagSet) (args : list string) : FlagSet * option error :=
  (foldl (λ (fs : FlagSet) arg,
            match strings.Split arg "=" with
            | [String "-" name; v] => alter (λ val, (value_Set val v).1) name fs
            | _ => fs
            end) fs args,
   None).

(** The data directory and the discovery URL may come from the
    environment. *)
Definition FromEnv (fs : FlagSet) (envv : gmap string string) : FlagSet * option error :=
  (foldl (λ (fs : FlagSet) '(name, key),
            match envv !! key with
            | Some v =>
                if String.eqb (flagValue fs name) ""
                then alter (λ val, (value_Set val v).1) name fs
                else fs
            | None => fs
            end)
         fs [("data-dir", "ETCD_DATA_DIR"); ("discovery", "ETCD_DISCOVERY")],
   None).

Definition https (tls : TLSInfo) : string :=
  if negb (String.eqb (KeyFile tls) "") && negb (String.eqb (CertFile tls) "")
  then "https" else "http".

(** A world built from what varies between the examples: the
    classification of the data directory, the standby marker, the latest
    snapshot, the log, the answers of the network, and whether the
    marker file is there. *)
Definition world
    (detect : res WalVersion)
    (standby : option StandbyInfo4 * option error)
    (snapshot : res (option Store4))
    (log4 : res (list LogEntry))
    (get : string → res http_Response)
    (stat : option error) : World :=
  {| Scheme := https;
     ClientConfig := λ _, None;
     etcdmain_NewConfig := flags;
     flag_Parse := Parse;
     flags_SetFlagsFromEnv := FromEnv;
     path_Join := λ elem, strings.Join elem "/";
     path_Base := λ p, default "." (last (strings.Split p "/"));
     os_Stat := λ _, stat;
     os_IsNotExist := λ e, String.eqb e "no such file or directory";
     syscall_Exec := λ _ _ _, None;
     wal_DetectVersion := λ _, detect;
     migrate_DecodeStandbyInfo4FromFile := λ _, standby;
     migrate_DecodeLatestSnapshot4FromDir := λ _,
       match snapshot with
       | Err e => Err e
       | Ok None => Ok None
       | Ok (Some _) => Ok (Some {| State := "state" |})
       end;
     json_Unmarshal_Store4 := λ _,
       match snapshot with
       | Ok (Some st) => Ok st
       | _ => Err "unexpected end of JSON input"
       end;
     migrate_DecodeLog4FromFile := λ _, log4;
     migrate_NewCommand4 := λ name data,
       if String.eqb name "etcd:set" then
         match strings.Split data "=" with
         | [k; v] => Ok (CmdSet {| Key := k; SetValue := v |})
         | _ => Err "invalid character"
         end
       else if String.eqb name "etcd:join" then Ok (CmdOther name)
       else Err "unregistered command type";
     json_Unmarshal_map := λ b,
       match strings.Split b ":" with
       | [k; v] => Ok {[ k := v ]}
       | _ => Err "invalid character"
       end;
     http_Get := λ _ u, get u;
     url_Parse := λ _, Err "parse error";
     url_String := λ _, "";
     client_New := λ _, None;
     client_Get := λ _ _, Err "unreachable" |}.

Definition noStandby : option StandbyInfo4 * option error :=
  (None, Some "no such file or directory").

Definition noNetwork (u : string) : res http_Response := Err "connection refused".

Definition enoent : option error := Some "no such file or directory".

Definition st0 : state :=
  {| output := [];
     environ := {[ "ETCD_DISCOVERY" := "https://discovery.etcd.io/token" ]};
     os_Args := ["etcd-starter"; "-data-dir=/var/lib/etcd"] |}.

Definition args0 : list string := ["-data-dir=/var/lib/etcd"].

(** The configuration [parseConfig] makes of a command line when the
    environment is empty. *)
Definition config (args : list string) : FlagSet :=
  (Parse (foldl (λ (fs : FlagSet) f, <[f.1 := {| isBoolFlag := f.2; s := "" |}]> fs)
                ∅ flags) args).1.

(** Three candidates: [A] refuses the connection, [B] reports a version
    nobody knows, [C] reports ["1"]. *)
Definition getABC (u : string) : res http_Response :=
  if String.eqb u "http://A/version" then Err "connection refused"
  else if String.eqb u "http://B/version" then Ok {| Body := Ok "internalVersion:bogus" |}
  else if String.eqb u "http://C/version" then Ok {| Body := Ok "internalVersion:1" |}
  else Err "no such host".

Definition worldABC : World :=
  world (Ok WALNotExist) noStandby (Ok None) (Ok []) getABC enoent.

Definition plainTLS : TLSInfo := {| CAFile := ""; CertFile := ""; KeyFile := "" |}.

(** A v0.4 directory whose standby marker says [Running], with one peer
    that reports ["2"]. *)
Definition marker : StandbyInfo4 :=
  {| Running := true;
     ClientURLs := ["http://10.0.0.1:4001"];
     InitialCluster := "node1=http://10.0.0.1:7001" |}.

Definition getV2 (u : string) : res http_Response :=
  if String.eqb u "http://10.0.0.1:4001/version"
  then Ok {| Body := Ok "internalVersion:2" |}
  else Err "no such host".

Definition worldStandbyV2 : World :=
  world (Ok WALv0_4) (Some marker, None) (Ok None) (Ok []) getV2 None.

(** A v2.0 proxy directory without a standby marker file. *)
Definition worldProxy : World :=
  world (Ok WALv2_0Proxy) noStandby (Ok None) (Ok []) noNetwork enoent.

(** The configuration [parseConfig] makes of a command line and an
    environment. *)
Definition config_env (args : list string) (envv : gmap string string) : FlagSet :=
  (FromEnv (config args) envv).1.

(** A directory that cannot be classified. *)
Definition worldUnreadable : World :=
  world (Err "permission denied") noStandby (Ok None) (Ok []) noNetwork enoent.

(** No data directory yet, nobody to ask. *)
Definition worldAbsent : World :=
  world (Ok WALNotExist) noStandby (Ok None) (Ok []) noNetwork enoent.

(** A network in which the peer [10.0.0.5:7001] gives its client URL,
    nobody answers [/version] there, and a node that is not among the
    candidates, [10.0.0.9:4001], reports the version [iv]. *)
Definition getElsewhere (iv : string) (u : string) : res http_Response :=
  if String.eqb u "http://10.0.0.5:7001/etcdURL"
  then Ok {| Body := Ok "http://10.0.0.5:4001" |}
  else if String.eqb u "http://10.0.0.9:4001/version"
  then Ok {| Body := Ok ("internalVersion:" +:+ iv) |}
  else Err "connection refused".

(** The standby directory when the client URL of its marker is down and
    the node elsewhere reports ["2"]. *)
Definition worldStandbyElsewhere : World :=
  world (Ok WALv0_4) (Some marker, None) (Ok None) (Ok []) (getElsewhere "2") None.

(** No data directory, one static peer, and the node elsewhere reports
    ["1"]. *)
Definition argsPeers : list string := ["-data-dir=/var/lib/etcd"; "-peers=10.0.0.5:7001"].

Definition worldAbsentElsewhere : World :=
  world (Ok WALNotExist) noStandby (Ok None) (Ok []) (getElsewhere "1") enoent.

(** v0.4 directories. *)
Definition leaf (v : string) : node := {| Value := v; Children := ∅ |}.

Definition storeWith (etcd : gmap string (option node)) : Store4 :=
  {| Root := Some {| Value := "";
                     Children := {[ "_etcd" := Some {| Value := ""; Children := etcd |} ]} |} |}.

Definition storeMigrated : Store4 :=
  storeWith {[ "next-internal-version" := Some (leaf "2") ]}.

Definition storePlain : Store4 :=
  storeWith {[ "machines" := Some (leaf "") ]}.

(** A store whose root has no [_etcd] directory. *)
Definition storeBare : Store4 :=
  {| Root := Some {| Value := ""; Children := {[ "foo" := Some (leaf "bar") ]} |} |}.

(** A store whose root has the entry [_etcd], and the entry is null. *)
Definition storeNullEtcd : Store4 :=
  {| Root := Some {| Value := ""; Children := {[ "_etcd" := None ]} |} |}.

Definition join : LogEntry :=
  {| GetCommandName := "etcd:join"; GetCommand := "node1" |}.
Definition setMigration : LogEntry :=
  {| GetCommandName := "etcd:set"; GetCommand := "/_etcd/next-internal-version=2" |}.
Definition setOther : LogEntry :=
  {| GetCommandName := "etcd:set"; GetCommand := "/foo=bar" |}.
Definition garbage : LogEntry :=
  {| GetCommandName := "etcd:set"; GetCommand := "" |}.

Definition worldLegacy (snapshot : res (option Store4)) (log4 : res (list LogEntry)) : World :=
  world (Ok WALv0_4) noStandby snapshot log4 noNetwork enoent.

End Examples.

(** ** Running the monad *)

Lemma bind_Done {A B} (m : M A) (k : A → M B) st a st' :
  m st = (Done a, st') → bind m k st = k a st'.
Proof. intros H. unfold bind. by rewrite H. Qed.

Lemma bind_ret {A B} (a : A) (k : A → M B) st : bind (ret a) k st = k a st.
Proof. reflexivity. Qed.

Lemma bind_Printf {B} d (k : unit → M B) st :
  bind (Printf d) k st = k tt (with_output st [d]).
Proof. reflexivity. Qed.

Lemma with_output_nil st : with_output st [] = st.
Proof. destruct st. unfold with_output. simpl. by rewrite app_nil_r. Qed.

Lemma with_output_app st ds1 ds2 :
  with_output (with_output st ds1) ds2 = with_output st (ds1 ++ ds2).
Proof. unfold with_output. simpl. by rewrite app_assoc. Qed.

(** One step of a run: the first computation of a [bind] ends as the
    lemma [tac] proves. *)
Ltac run_with tac := erewrite bind_Done; [| tac]; cbv beta iota.

(** Membership of a literal in a literal list. *)
Ltac key_in :=
  unfold configKeys, v2SpecialFlags; simpl;
  repeat first [apply list_elem_of_here | apply list_elem_of_further].

(** Evaluation of a decidable statement about literals. *)
Ltac by_computation := apply (bool_decide_unpack _); vm_compute; exact I.

Lemma eqb_false_iff (a b : string) : String.eqb a b = false ↔ a ≠ b.
Proof. apply String.eqb_neq. Qed.

(** ** The configuration *)

Section config.

Variable w : World.
Variable fs : FlagSet.
Hypothesis Hcfg : parsedConfig fs.

Lemma Lookup_registered name st :
  name ∈ configKeys →
  Lookup_Value_String fs name st = (Done (flagValue fs name), st).
Proof.
  intros Hin. unfold parsedConfig in Hcfg.
  rewrite Forall_forall in Hcfg. destruct (Hcfg name Hin) as [v Hv].
  unfold Lookup_Value_String, flagValue. by rewrite Hv.
Qed.

Lemma flags_scan names st :
  names ⊆ configKeys →
  checkInternalVersion_flags fs names st
  = (Done (existsb (λ name, negb (String.eqb (flagValue fs name) "")) names), st).
Proof.
  induction names as [|name names IH]; intros Hsub; [done|].
  simpl. run_with ltac:(apply Lookup_registered, Hsub; left).
  destruct (String.eqb (flagValue fs name) ""); simpl; [|done].
  apply IH. intros x Hx. apply Hsub. by right.
Qed.

Lemma v2SpecialFlags_registered : v2SpecialFlags ⊆ configKeys.
Proof. intros x Hx. unfold configKeys. apply elem_of_app. by left. Qed.

Lemma flags_scan_set st :
  v2FlagSet fs →
  checkInternalVersion_flags fs v2SpecialFlags st = (Done true, st).
Proof.
  intros Hset. rewrite flags_scan; last apply v2SpecialFlags_registered.
  do 2 f_equal. apply existsb_exists.
  apply Exists_exists in Hset as (name & Hin & Hne).
  exists name. split; [by apply list_elem_of_In|].
  apply negb_true_iff. by apply eqb_false_iff.
Qed.

Lemma flags_scan_unset st :
  noV2Flag fs →
  checkInternalVersion_flags fs v2SpecialFlags st = (Done false, st).
Proof.
  intros Hno. rewrite flags_scan; last apply v2SpecialFlags_registered.
  do 2 f_equal. apply not_true_is_false. intros Hex.
  apply existsb_exists in Hex as (name & Hin & Hne).
  unfold noV2Flag in Hno. rewrite Forall_forall in Hno.
  rewrite (Hno name) in Hne; [done|]. by apply list_elem_of_In.
Qed.

Lemma clientTLSInfo_registered st :
  clientTLSInfo fs st
  = (Done {| CAFile := flagValue fs "ca-file";
             CertFile := flagValue fs "cert-file";
             KeyFile := flagValue fs "key-file" |}, st).
Proof.
  unfold clientTLSInfo.
  do 3 run_with ltac:(apply Lookup_registered; key_in).
  done.
Qed.

Lemma peerTLSInfo_registered st :
  peerTLSInfo fs st
  = (Done {| CAFile := flagValue fs "peer-ca-file";
             CertFile := flagValue fs "peer-cert-file";
             KeyFile := flagValue fs "peer-key-file" |}, st).
Proof.
  unfold peerTLSInfo.
  do 3 run_with ltac:(apply Lookup_registered; key_in).
  done.
Qed.

(** The resolver up to the classification of the data directory, when
    no v2-only flag is set and a data directory is configured. *)
Lemma checkInternalVersion_classified st dataver :
  noV2Flag fs →
  flagValue fs "data-dir" ≠ "" →
  wal_DetectVersion w (flagValue fs "data-dir") = Ok dataver →
  checkInternalVersion w fs st
  = (let st1 := with_output st [D_detected_version dataver (flagValue fs "data-dir")] in
     match dataver with
     | WALv2_0 | WALv2_0_1 => (Done internalV2, st1)
     | WALv2_0Proxy => (Done internalV2Proxy, st1)
     | WALv0_4 => checkInternalVersion_v0_4 w fs (flagValue fs "data-dir") st1
     | WALNotExist => checkInternalVersion_notExist w fs st1
     | WALUnknown =>
         (Done internalV2,
          with_output st1 [D_unrecognized_contents (flagValue fs "data-dir")])
     end).
Proof.
  intros Hno Hdir Hdet. unfold checkInternalVersion.
  run_with ltac:(by apply flags_scan_unset).
  run_with ltac:(apply Lookup_registered; key_in).
  apply eqb_false_iff in Hdir. rewrite Hdir, Hdet. cbv beta iota.
  rewrite bind_Printf. by destruct dataver.
Qed.

Lemma checkInternalVersion_special st :
  v2FlagSet fs → checkInternalVersion w fs st = (Done internalV2, st).
Proof.
  intros Hset. unfold checkInternalVersion.
  run_with ltac:(by apply flags_scan_set). done.
Qed.

Lemma checkInternalVersion_no_dataDir st :
  noV2Flag fs →
  flagValue fs "data-dir" = "" →
  checkInternalVersion w fs st = (Done internalV2, with_output st [D_data_dir_not_set]).
Proof.
  intros Hno Hdir. unfold checkInternalVersion.
  run_with ltac:(by apply flags_scan_unset).
  run_with ltac:(apply Lookup_registered; key_in).
  by rewrite Hdir.
Qed.

Lemma checkInternalVersion_unclassified st err :
  noV2Flag fs →
  flagValue fs "data-dir" ≠ "" →
  wal_DetectVersion w (flagValue fs "data-dir") = Err err →
  checkInternalVersion w fs st
  = (Exit 1, with_output st [D_failed_to_detect (flagValue fs "data-dir") err]).
Proof.
  intros Hno Hdir Hdet. unfold checkInternalVersion.
  run_with ltac:(by apply flags_scan_unset).
  run_with ltac:(apply Lookup_registered; key_in).
  apply eqb_false_iff in Hdir. by rewrite Hdir, Hdet.
Qed.

Lemma v2Flag_cases : v2FlagSet fs ∨ noV2Flag fs.
Proof.
  unfold v2FlagSet, noV2Flag.
  destruct (decide (Forall (λ name, flagValue fs name = "") v2SpecialFlags)) as [|Hex];
    [by right | left].
  by apply not_Forall_Exists in Hex; [|apply _].
Qed.

End config.

(** C1. For every parsed configuration in which one of the four v2-only
    flags ([initial-cluster], [listen-peer-urls], [listen-client-urls],
    [proxy]) has a non-empty value, [checkInternalVersion] returns
    [internalV2] at once: in every world, whatever the data directory is
    and holds, and without writing a line or touching the state. *)
Theorem v2_flag_resolves_to_V2 (w : World) (fs : FlagSet) (st : state) :
  parsedConfig fs →
  v2FlagSet fs →
  checkInternalVersion w fs st = (Done internalV2, st).
Proof.
  intros Hcfg Hset. unfold checkInternalVersion.
  run_with ltac:(by apply flags_scan_set).
  reflexivity.
Qed.

Lemma v2_flag_resolves_to_V2_witness :
  checkInternalVersion Examples.worldUnreadable
    (Examples.config ["-proxy=on"; "-data-dir=/var/lib/etcd"]) Examples.st0
  = (Done internalV2, Examples.st0).
Proof.
  apply v2_flag_resolves_to_V2.
  - unfold parsedConfig. apply (bool_decide_unpack _). vm_compute. exact I.
  - unfold v2FlagSet. apply (bool_decide_unpack _). vm_compute. exact I.
Defined.

(** ** The peer version probe *)

Section probe.

Variable w : World.
Variable c : http_Client.

(** A skipped candidate costs one diagnostic and the scan goes on. *)
Lemma probe_loop_skip urls u rest d st :
  skipped w c u d →
  checkInternalVersionByClientURLs_loop w c urls (u :: rest) st
  = checkInternalVersionByClientURLs_loop w c urls rest (with_output st [d]).
Proof.
  intros Hskip. simpl.
  destruct Hskip as [err Hget | err Hget | b err Hget Hjson | b m iv Hget Hjson Hiv H1 H2];
    rewrite Hget; simpl; try done.
  - by rewrite Hjson.
  - rewrite Hjson, Hiv.
    apply eqb_false_iff in H1, H2. by rewrite H1, H2.
Qed.

Lemma probe_loop_skips urls pre rest ds st :
  Forall2 (skipped w c) pre ds →
  checkInternalVersionByClientURLs_loop w c urls (pre ++ rest) st
  = checkInternalVersionByClientURLs_loop w c urls rest (with_output st ds).
Proof.
  intros Hskips. revert st.
  induction Hskips as [|u d pre ds Hskip _ IH]; intros st.
  - by rewrite with_output_nil.
  - simpl app. rewrite (probe_loop_skip _ _ _ _ _ Hskip), IH.
    by rewrite with_output_app.
Qed.

(** A candidate that reports ["1"] or ["2"] ends the scan. *)
Lemma probe_loop_answer urls u rest iv st :
  reports w c u iv →
  iv = "1" ∨ iv = "2" →
  checkInternalVersionByClientURLs_loop w c urls (u :: rest) st
  = (Done (if String.eqb iv "1" then internalV1 else internalV2, None), st).
Proof.
  intros (b & m & Hget & Hjson & Hiv) Hrec. simpl.
  rewrite Hget. simpl. rewrite Hjson, Hiv. simpl.
  by destruct Hrec as [-> | ->].
Qed.

(** When every candidate is skipped the scan ends in the error that
    lists them. *)
Lemma probe_loop_exhausted urls rest ds st :
  Forall2 (skipped w c) rest ds →
  checkInternalVersionByClientURLs_loop w c urls rest st
  = (Done (internalUnknown,
           Some ("failed to get version from urls " +:+ fmt.v_strings urls)),
     with_output st ds).
Proof.
  intros Hskips.
  rewrite <- (app_nil_r rest), (probe_loop_skips _ _ _ _ _ Hskips). done.
Qed.

End probe.

(** C4. The peer version probe tries the candidate URLs in order and
    returns the version of the first one whose [/version] answer carries
    the [internalVersion] ["1"] (giving [internalV1]) or ["2"] (giving
    [internalV2]); the candidates before it, whose request failed, whose
    body could not be read or parsed, or whose [internalVersion] is some
    other value, are each reported by one diagnostic and passed over, and
    the candidates after it are not asked. *)
Theorem probe_returns_first_answer (w : World) (tls : TLSInfo) (c : http_Client)
    (urls pre post : list string) (u iv : string) (ds : list diag) (st : state) :
  newDefaultClient w tls = Ok c →
  urls = pre ++ u :: post →
  Forall2 (skipped w c) pre ds →
  reports w c u iv →
  iv = "1" ∨ iv = "2" →
  checkInternalVersionByClientURLs w urls tls st
  = (Done (if String.eqb iv "1" then internalV1 else internalV2, None),
     with_output st ds).
Proof.
  intros Hclient -> Hskips Hrep Hiv.
  unfold checkInternalVersionByClientURLs. rewrite Hclient.
  rewrite (probe_loop_skips _ _ _ _ _ _ _ Hskips).
  by apply probe_loop_answer.
Qed.

(** For the candidates [A] (request error), [B] ([internalVersion]
    ["bogus"]) and [C] ([internalVersion] ["1"]) the probe returns
    [internalV1]. *)
Lemma probe_returns_first_answer_witness :
  checkInternalVersionByClientURLs Examples.worldABC
    ["http://A"; "http://B"; "http://C"] Examples.plainTLS Examples.st0
  = (Done (internalV1, None),
     with_output Examples.st0
       [D_failed_get_version "http://A";
        D_unrecognized_internal_version "bogus" "http://B"]).
Proof.
  apply (probe_returns_first_answer Examples.worldABC Examples.plainTLS
           {| TLSClientConfig := None |}
           _ ["http://A"; "http://B"] [] "http://C" "1").
  - reflexivity.
  - reflexivity.
  - constructor; [|constructor; [|constructor]].
    + by apply (skipped_get _ _ _ "connection refused").
    + apply (skipped_unrecognized _ _ _ "internalVersion:bogus"
               {[ "internalVersion" := "bogus" ]} "bogus");
        [reflexivity | reflexivity | reflexivity | discriminate | discriminate].
  - exists "internalVersion:1", {[ "internalVersion" := "1" ]}.
    split; [reflexivity | split; reflexivity].
  - by left.
Defined.

(** ** Splitting the peers flag *)

Lemma append_cons (x : ascii) (a b : string) : String x a +:+ b = String x (a +:+ b).
Proof. reflexivity. Qed.

Lemma append_assoc (a b c : string) : (a +:+ b) +:+ c = a +:+ (b +:+ c).
Proof. induction a as [|x a IH]; [done|]. by rewrite !append_cons, IH. Qed.

Lemma append_empty_r (a : string) : a +:+ "" = a.
Proof. induction a as [|x a IH]; [done|]. by rewrite append_cons, IH. Qed.

Lemma commas_cons (ch : ascii) (str : string) :
  commas (String ch str) = (if Ascii.eqb "," ch then 1 else 0) + commas str.
Proof. reflexivity. Qed.

Lemma commas_append (a b : string) : commas (a +:+ b) = commas a + commas b.
Proof.
  induction a as [|x a IH]; [done|].
  rewrite append_cons, !commas_cons, IH. lia.
Qed.

Lemma rev_onto_append (a acc : string) :
  strings.rev_onto a acc = strings.rev_onto a "" +:+ acc.
Proof.
  revert acc. induction a as [|x a IH]; intros acc; simpl; [done|].
  rewrite (IH (String x acc)), (IH (String x "")).
  by rewrite append_assoc.
Qed.

Lemma commas_rev_onto (a : string) : commas (strings.rev_onto a "") = commas a.
Proof.
  induction a as [|x a IH]; [done|].
  change (strings.rev_onto (String x a) "") with (strings.rev_onto a (String x "")).
  rewrite rev_onto_append, commas_append, IH, !commas_cons. simpl. lia.
Qed.

Lemma HasPrefix_append (p rest : string) : strings.HasPrefix (p +:+ rest) p = true.
Proof.
  induction p as [|x p IH]; [done|].
  rewrite append_cons. cbn [strings.HasPrefix]. by rewrite Ascii.eqb_refl.
Qed.

(** An in-place update of every element of a slice is a [map]. *)
Lemma update_each {A} (f : A → A) (done rest : list A) :
  foldl (λ l i, match l !! i with Some x => <[i := f x]> l | None => l end)
        (map f done ++ rest) (seq (length done) (length rest))
  = map f (done ++ rest).
Proof.
  revert done. induction rest as [|x rest IH]; intros done; simpl.
  - by rewrite !app_nil_r.
  - rewrite list_lookup_middle; last by rewrite length_map.
    replace (<[length done := f x]> (map f done ++ x :: rest))
      with (map f (done ++ [x]) ++ rest).
    + replace (S (length done)) with (length (done ++ [x]));
        last (rewrite length_app; simpl; lia).
      rewrite IH. by rewrite <- app_assoc.
    + rewrite map_app, <- app_assoc. simpl.
      replace (length done) with (length (map f done) + 0) at 1;
        last (rewrite length_map; lia).
      by rewrite insert_app_r.
Qed.

Lemma trimSplit_map (str sep : string) :
  trimSplit str sep = map strings.TrimSpace (strings.Split str sep).
Proof. unfold trimSplit. apply (update_each strings.TrimSpace []). Qed.

Lemma getPeersFromPeersFlag_map (w : World) (str : string) (tls : TLSInfo) :
  getPeersFromPeersFlag w str tls
  = map (λ p, Scheme w tls +:+ "://" +:+ p) (trimSplit str ",").
Proof.
  unfold getPeersFromPeersFlag.
  apply (update_each (λ p, Scheme w tls +:+ "://" +:+ p) []).
Qed.

(** The fields [strings.Split] cuts at the commas: joined by commas they
    give the string back, none holds a comma, and there is one more of
    them than there are commas. *)
Lemma split_scan_comma_cons (ch : ascii) (str cur : string) :
  strings.split_scan "," (String ch str) 0 cur
  = if Ascii.eqb "," ch
    then strings.rev_onto cur "" :: strings.split_scan "," str 0 ""
    else strings.split_scan "," str 0 (String ch cur).
Proof.
  cbn [strings.split_scan strings.HasPrefix].
  by destruct (Ascii.eqb "," ch).
Qed.

Lemma split_scan_comma (str cur : string) :
  ∃ field fields,
    strings.split_scan "," str 0 cur = field :: fields ∧
    strings.Join (field :: fields) "," = strings.rev_onto cur "" +:+ str ∧
    (commas cur = 0 → Forall (λ f, commas f = 0) (field :: fields)) ∧
    length fields = commas str.
Proof.
  revert cur. induction str as [|ch str IH]; intros cur.
  - exists (strings.rev_onto cur ""), []. simpl.
    rewrite append_empty_r. split; [done|]. split; [done|]. split; [|done].
    intros Hcur. constructor; [|done]. by rewrite commas_rev_onto.
  - rewrite split_scan_comma_cons, commas_cons.
    destruct (Ascii.eqb "," ch) eqn:Hch.
    + apply Ascii.eqb_eq in Hch as <-.
      destruct (IH "") as (f & fs & -> & Hjoin & Hfree & Hlen).
      exists (strings.rev_onto cur ""), (f :: fs).
      split; [done|]. split; [|split].
      * change (strings.Join (strings.rev_onto cur "" :: f :: fs) ",")
          with (strings.rev_onto cur "" +:+ "," +:+ strings.Join (f :: fs) ",").
        rewrite Hjoin. reflexivity.
      * intros Hcur. constructor; [by rewrite commas_rev_onto | by apply Hfree].
      * simpl. by rewrite Hlen.
    + destruct (IH (String ch cur)) as (f & fs & -> & Hjoin & Hfree & Hlen).
      exists f, fs. split; [done|]. split; [|split; [|done]].
      * rewrite Hjoin.
        change (strings.rev_onto (String ch cur) "")
          with (strings.rev_onto cur (String ch "")).
        rewrite rev_onto_append, append_assoc. reflexivity.
      * intros Hcur. apply Hfree. rewrite commas_cons, Hch, Hcur. done.
Qed.

(** C9. For every string, [getPeersFromPeersFlag] returns one peer per
    comma-separated field of it: the field, trimmed, behind the scheme of
    the TLS material and ["://"].  There is one field more than there are
    commas, so the empty string gives the one peer ["<scheme>://"], and no
    value of the peers flag gives an empty list. *)
Theorem peers_flag_one_peer_per_field (w : World) (str : string) (tls : TLSInfo) :
  (∃ fields,
     strings.Join fields "," = str ∧
     Forall (λ f, commas f = 0) fields ∧
     length fields = S (commas str) ∧
     getPeersFromPeersFlag w str tls
     = map (λ f, Scheme w tls +:+ "://" +:+ strings.TrimSpace f) fields) ∧
  Forall (λ peer, strings.HasPrefix peer (Scheme w tls +:+ "://") = true)
         (getPeersFromPeersFlag w str tls) ∧
  getPeersFromPeersFlag w "" tls = [Scheme w tls +:+ "://"] ∧
  getPeersFromPeersFlag w str tls ≠ [].
Proof.
  assert (Hmap : getPeersFromPeersFlag w str tls
                 = map (λ f, Scheme w tls +:+ "://" +:+ strings.TrimSpace f)
                       (strings.Split str ",")).
  { rewrite getPeersFromPeersFlag_map, trimSplit_map, map_map. done. }
  destruct (split_scan_comma str "") as (f & fs & Hsplit & Hjoin & Hfree & Hlen).
  change (strings.split_scan "," str 0 "") with (strings.Split str ",") in Hsplit.
  split; [|split; [|split]].
  - exists (f :: fs).
    split; [done|]. split; [by apply Hfree|]. split; [simpl; by rewrite Hlen|].
    by rewrite Hmap, Hsplit.
  - rewrite Hmap. apply Forall_map, Forall_forall. intros x _.
    rewrite <- append_assoc. apply HasPrefix_append.
  - rewrite getPeersFromPeersFlag_map, trimSplit_map. done.
  - rewrite Hmap, Hsplit. done.
Qed.

(** ** The inspector of a v0.4 directory *)

Section inspector.

Variable w : World.

Lemma log_loop_plain before rest :
  Forall (plainEntry w) before →
  checkInternalVersionByDataDir4_loop w (before ++ rest)
  = checkInternalVersionByDataDir4_loop w rest.
Proof.
  induction 1 as [|e before (cmd & Hcmd & Hplain) _ IH]; [done|].
  simpl. rewrite Hcmd. destruct cmd as [setcmd | name]; [|done].
  destruct (String.eqb_spec (Key setcmd) "/_etcd/next-internal-version") as [Hk|]; [|done].
  destruct (String.eqb_spec (SetValue setcmd) "2") as [Hv|]; [|done].
  by destruct Hplain.
Qed.

Lemma log_loop_migration e rest :
  migrationEntry w e →
  checkInternalVersionByDataDir4_loop w (e :: rest) = (internalV2, None).
Proof.
  intros (setcmd & Hcmd & Hk & Hv). simpl. rewrite Hcmd, Hk, Hv. done.
Qed.

Lemma log_loop_broken e err rest :
  brokenEntry w e err →
  checkInternalVersionByDataDir4_loop w (e :: rest) = (internalUnknown, Some err).
Proof. intros Hcmd. simpl. unfold brokenEntry in Hcmd. by rewrite Hcmd. Qed.

Lemma log_loop_clean ents4 :
  Forall (plainEntry w) ents4 →
  checkInternalVersionByDataDir4_loop w ents4 = (internalV1, None).
Proof.
  intros Hplain. rewrite <- (app_nil_r ents4). by rewrite log_loop_plain.
Qed.

(** Every entry is plain, the migration entry, or broken. *)
Lemma entry_cases e :
  plainEntry w e ∨ migrationEntry w e ∨ ∃ err, brokenEntry w e err.
Proof.
  unfold plainEntry, migrationEntry, brokenEntry.
  destruct (migrate_NewCommand4 w (GetCommandName e) (GetCommand e))
    as [[setcmd | name] | err].
  - destruct (decide (Key setcmd = "/_etcd/next-internal-version" ∧ SetValue setcmd = "2"))
      as [[Hk Hv] | Hno].
    + right; left. by exists setcmd.
    + left. by exists (CmdSet setcmd).
  - left. by exists (CmdOther name).
  - right; right. by exists err.
Qed.

(** A log is plain throughout, or has a first entry that is not. *)
Lemma log_cases ents4 :
  Forall (plainEntry w) ents4 ∨
  ∃ before e after,
    ents4 = before ++ e :: after ∧ Forall (plainEntry w) before ∧
    (migrationEntry w e ∨ ∃ err, brokenEntry w e err).
Proof.
  induction ents4 as [|e ents4 IH]; [by left|].
  destruct (entry_cases e) as [Hplain | Hother].
  - destruct IH as [Hall | (before & e' & after & -> & Hbefore & He')].
    + left. by constructor.
    + right. exists (e :: before), e', after. split; [done|]. split; [by constructor | done].
  - right. exists [], e, ents4. split; [done|]. split; [constructor | done].
Qed.

Lemma logStage_total dataDir : ∃ lf, logStage w dataDir lf.
Proof.
  destruct (migrate_DecodeLog4FromFile w (logFile4 w dataDir)) as [ents4 | err] eqn:Hlog.
  - destruct (log_cases ents4)
      as [Hall | (before & e & after & -> & Hbefore & [Hmig | [err Hbroken]])].
    + exists LogClean. by eapply log_clean.
    + exists LogMigrated. by eapply log_migrated.
    + exists (LogError err). by eapply log_entry_error.
  - exists (LogError err). by apply log_file_error.
Qed.

Lemma log_stage_verdict dataDir lf st :
  logStage w dataDir lf →
  checkInternalVersionByDataDir4_log w dataDir st
  = (Done (inspectorVerdict SnapshotSilent lf), st).
Proof.
  intros Hlog. unfold checkInternalVersionByDataDir4_log.
  destruct Hlog as [err Hfile | before e after err Hfile Hplain He
                   | before e after Hfile Hplain He | ents4 Hfile Hplain];
    rewrite Hfile; simpl; unfold ret; do 2 f_equal.
  - rewrite log_loop_plain by done. by eapply log_loop_broken.
  - rewrite log_loop_plain by done. by eapply log_loop_migration.
  - by apply log_loop_clean.
Qed.

Lemma snapshotStage_total dataDir :
  snapshotShape w dataDir → ∃ sf, snapshotStage w dataDir sf.
Proof.
  intros Hshape.
  destruct (migrate_DecodeLatestSnapshot4FromDir w (snapDir4 w dataDir))
    as [[snap4|] | err] eqn:Hdir.
  - destruct (json_Unmarshal_Store4 w (State snap4)) as [st | err] eqn:Hstate.
    + assert (Hstore : snapshotStore w dataDir st) by (by exists snap4).
      destruct (Hshape st Hstore) as (dir & Hdirnode & Hentry).
      destruct (Children dir !! "next-internal-version") as [[n|]|] eqn:Hn; [| done |].
      * destruct (decide (Value n = "2")) as [Hv | Hv].
        -- exists SnapshotMigrated. eapply snapshot_migrated; [done|].
           by exists dir, n.
        -- exists SnapshotSilent. eapply snapshot_other_value; [done | | done].
           by exists dir, n.
      * exists SnapshotSilent. by eapply snapshot_no_entry.
    + exists (SnapshotError err). by eapply snapshot_state_error.
  - exists SnapshotSilent. by apply snapshot_none.
  - exists (SnapshotError err). by apply snapshot_dir_error.
Qed.

(** The snapshot stage on a store that decodes and has the [_etcd]
    directory [dir]. *)
Lemma snapshot_stage_dir dataDir store dir st :
  snapshotStore w dataDir store →
  etcdDir store = Some dir →
  checkInternalVersionByDataDir4 w dataDir st
  = match Children dir !! "next-internal-version" with
    | None => checkInternalVersionByDataDir4_log w dataDir st
    | Some None => (Panicked (NilDereference "n"), st)
    | Some (Some n) =>
        if String.eqb (Value n) "2" then (Done (internalV2, None), st)
        else checkInternalVersionByDataDir4_log w dataDir st
    end.
Proof.
  intros (snap4 & Hdir & Hstate) Hetcd. unfold checkInternalVersionByDataDir4.
  rewrite Hdir, Hstate. unfold etcdDir in Hetcd.
  destruct (Root store) as [root|]; [|done]. simpl in Hetcd. rewrite Hetcd.
  destruct (Children dir !! "next-internal-version") as [[n|]|]; [|done..].
  by destruct (String.eqb (Value n) "2").
Qed.

(** The snapshot stage on a store that decodes and whose root lacks the
    [_etcd] directory. *)
Lemma snapshot_stage_no_dir dataDir store root st :
  snapshotStore w dataDir store →
  Root store = Some root →
  default None (Children root !! "_etcd") = None →
  checkInternalVersionByDataDir4 w dataDir st = (Panicked (NilDereference "dir"), st).
Proof.
  intros (snap4 & Hdir & Hstate) Hroot Hetcd. unfold checkInternalVersionByDataDir4.
  by rewrite Hdir, Hstate, Hroot, Hetcd.
Qed.

Lemma inspector_verdict dataDir sf lf st :
  snapshotStage w dataDir sf →
  logStage w dataDir lf →
  checkInternalVersionByDataDir4 w dataDir st = (Done (inspectorVerdict sf lf), st).
Proof.
  intros Hsnap Hlog.
  destruct Hsnap as [err Hdir | snap4 err Hdir Hstate | Hdir
                    | store dir Hstore Hetcd Hentry
                    | store v Hstore (dir & n & Hetcd & Hentry & Hv) Hne
                    | store Hstore (dir & n & Hetcd & Hentry & Hv)].
  - unfold checkInternalVersionByDataDir4. by rewrite Hdir.
  - unfold checkInternalVersionByDataDir4. by rewrite Hdir, Hstate.
  - unfold checkInternalVersionByDataDir4. rewrite Hdir. by apply log_stage_verdict.
  - rewrite (snapshot_stage_dir _ _ _ _ Hstore Hetcd), Hentry.
    by apply log_stage_verdict.
  - rewrite (snapshot_stage_dir _ _ _ _ Hstore Hetcd), Hentry.
    subst v. apply eqb_false_iff in Hne. rewrite Hne. by apply log_stage_verdict.
  - rewrite (snapshot_stage_dir _ _ _ _ Hstore Hetcd), Hentry, Hv. done.
Qed.

(** Without a running standby marker the resolver asks the inspector. *)
Lemma v0_4_no_standby fs dataDir st :
  noRunningStandby w dataDir →
  checkInternalVersion_v0_4 w fs dataDir st = checkInternalVersion_dataDir4 w dataDir st.
Proof.
  intros (standbyInfo & err & Hdec & Herr & Hrun).
  unfold checkInternalVersion_v0_4. rewrite Hdec.
  assert (Hdecoded : match standbyInfo with
                     | Some si =>
                         if Running si then checkInternalVersion_standby w fs si
                         else checkInternalVersion_dataDir4 w dataDir
                     | None => checkInternalVersion_dataDir4 w dataDir
                     end = checkInternalVersion_dataDir4 w dataDir).
  { destruct standbyInfo as [si|]; [|done]. by rewrite (Hrun si). }
  cbv zeta. rewrite Hdecoded.
  destruct err as [e|]; [|done]. by rewrite (Herr e).
Qed.

End inspector.

(** The inspector on a directory whose snapshot has the shape it expects.
    For a v0.4 directory without a running standby marker, whose latest
    snapshot, when it decodes, has a root with the [_etcd] directory (and
    no null [next-internal-version] in it): the snapshot stage and the log
    stage each come to one of their findings, and the inspector reports
    [internalV2] when the snapshot holds
    [_etcd/next-internal-version] with the value ["2"], or, failing that,
    when the first log entry that is broken or sets
    [/_etcd/next-internal-version] to ["2"] is such a set command; it
    reports [internalV1] when the snapshot is silent and every log entry
    decodes to something else; and it returns the error when the snapshot,
    its state, the log file, or a log entry met before any such set
    command does not decode.  The resolver returns the reported version,
    and on an error writes the diagnostic and returns [internalV1]. *)
Theorem legacy_directory_inspection (w : World) (fs : FlagSet) (dataDir : string)
    (st : state) :
  snapshotShape w dataDir →
  (∃ sf lf, snapshotStage w dataDir sf ∧ logStage w dataDir lf) ∧
  (∀ sf lf,
     snapshotStage w dataDir sf →
     logStage w dataDir lf →
     checkInternalVersionByDataDir4 w dataDir st = (Done (inspectorVerdict sf lf), st) ∧
     (parsedConfig fs →
      noV2Flag fs →
      flagValue fs "data-dir" = dataDir →
      dataDir ≠ "" →
      wal_DetectVersion w dataDir = Ok WALv0_4 →
      noRunningStandby w dataDir →
      checkInternalVersion w fs st
      = match inspectorVerdict sf lf with
        | (ver, None) =>
            (Done ver, with_output st [D_detected_version WALv0_4 dataDir])
        | (_, Some err) =>
            (Done internalV1,
             with_output st [D_detected_version WALv0_4 dataDir;
                             D_failed_check_in dataDir err])
        end)).
Proof.
  intros Hshape. split.
  - destruct (snapshotStage_total w dataDir Hshape) as [sf Hsf].
    destruct (logStage_total w dataDir) as [lf Hlf]. by exists sf, lf.
  - intros sf lf Hsf Hlf. split; [by apply inspector_verdict|].
    intros Hcfg Hno <- Hdir Hdet Hstandby.
    rewrite (checkInternalVersion_classified w fs Hcfg st WALv0_4 Hno Hdir Hdet).
    cbv zeta iota. rewrite v0_4_no_standby by done.
    unfold checkInternalVersion_dataDir4.
    run_with ltac:(by apply inspector_verdict).
    destruct (inspectorVerdict sf lf) as [ver [err|]]; [|done].
    rewrite bind_Printf. unfold ret. by rewrite with_output_app.
Qed.

(** A snapshot without the migration entry and a log that sets it after
    two other commands: [internalV2]. *)
Lemma legacy_directory_inspection_witness :
  checkInternalVersion
    (Examples.worldLegacy (Ok (Some Examples.storePlain))
       (Ok [Examples.join; Examples.setOther; Examples.setMigration; Examples.garbage]))
    (Examples.config Examples.args0) Examples.st0
  = (Done internalV2,
     with_output Examples.st0 [D_detected_version WALv0_4 "/var/lib/etcd"]).
Proof.
  set (w := Examples.worldLegacy (Ok (Some Examples.storePlain))
              (Ok [Examples.join; Examples.setOther; Examples.setMigration; Examples.garbage])).
  assert (Hstore : snapshotStore w "/var/lib/etcd" Examples.storePlain).
  { exists {| State := "state" |}. by vm_compute. }
  assert (Hshape : snapshotShape w "/var/lib/etcd").
  { intros st (snap4 & _ & Hst). vm_compute in Hst. injection Hst as <-.
    eexists. split; [by vm_compute|]. by vm_compute. }
  destruct (legacy_directory_inspection w (Examples.config Examples.args0)
              "/var/lib/etcd" Examples.st0 Hshape) as [_ Hverdict].
  apply (Hverdict SnapshotSilent LogMigrated).
  - eapply snapshot_no_entry; [exact Hstore | by vm_compute | by vm_compute].
  - apply (log_migrated _ _ [Examples.join; Examples.setOther] Examples.setMigration
             [Examples.garbage]); [done | |].
    + constructor; [|constructor; [|constructor]].
      * exists (CmdOther "etcd:join"). by vm_compute.
      * exists (CmdSet {| Key := "/foo"; SetValue := "bar" |}).
        split; [by vm_compute|]. by intros [? _].
    + eexists. split; [by vm_compute|]. by vm_compute.
  - unfold parsedConfig. by_computation.
  - unfold noV2Flag. by_computation.
  - by vm_compute.
  - done.
  - done.
  - exists None, (Some "no such file or directory").
    split; [done|]. split; [|done]. intros e [= <-]. by vm_compute.
Defined.

(** C5, what the code does where it departs from the claim.  On a v0.4
    directory without a running standby marker, whose latest snapshot
    decodes to a store with a root and no [_etcd] directory under it, and
    whose log decodes and holds the set command of
    [/_etcd/next-internal-version] to ["2"]: the inspector does not go on
    to the log and report [internalV2].  It stops at [dir.Children], the
    dereference of the [nil] directory it has just looked up, and the
    resolver stops with it, having written the classification only. *)
Lemma inspection_panics_without_etcd_directory :
  let w := Examples.worldLegacy (Ok (Some Examples.storeBare)) (Ok [Examples.setMigration]) in
  logHasMigration w "/var/lib/etcd" ∧
  ¬ decodeError w "/var/lib/etcd" ∧
  noRunningStandby w "/var/lib/etcd" ∧
  checkInternalVersionByDataDir4 w "/var/lib/etcd" Examples.st0
  = (Panicked (NilDereference "dir"), Examples.st0) ∧
  checkInternalVersion w (Examples.config Examples.args0) Examples.st0
  = (Panicked (NilDereference "dir"),
     with_output Examples.st0 [D_detected_version WALv0_4 "/var/lib/etcd"]).
Proof.
  intros w. split; [|split; [|split; [|split]]].
  - exists [Examples.setMigration], Examples.setMigration.
    split; [done|]. split; [by left|].
    eexists. split; [by vm_compute|]. by vm_compute.
  - intros [[err H] | [(snap4 & err & _ & H) | [[err H] | (ents4 & e & err & H & Hin & He)]]];
      try by vm_compute in H.
    vm_compute in H. injection H as <-.
    apply list_elem_of_singleton in Hin as ->. by vm_compute in He.
  - exists None, (Some "no such file or directory").
    split; [done|]. split; [|done]. intros e [= <-]. by vm_compute.
  - by vm_compute.
  - by vm_compute.
Qed.

(** C10, amended.  In the snapshot stage of the inspector, [dir.Children]
    is read from the result of looking [_etcd] up in the children of the
    root.  For every snapshot that decodes to a store with a root, the
    read is safe when the children of the root hold an [_etcd] entry that
    is a node: the inspector does not end in the [nil] dereference of
    [dir]; and it is safe only then: when the entry is missing, and also
    when it is there and null, the inspector ends in that [nil]
    dereference, whatever the log holds. *)
Theorem etcd_directory_precondition (w : World) (dataDir : string) (store : Store4)
    (root : node) (st : state) :
  snapshotStore w dataDir store →
  Root store = Some root →
  ((∃ dir, Children root !! "_etcd" = Some (Some dir)) →
   (checkInternalVersionByDataDir4 w dataDir st).1 ≠ Panicked (NilDereference "dir")) ∧
  (Children root !! "_etcd" = None ∨ Children root !! "_etcd" = Some None →
   checkInternalVersionByDataDir4 w dataDir st = (Panicked (NilDereference "dir"), st)).
Proof.
  intros Hstore Hroot. split.
  - intros [dir Hdir].
    assert (Hetcd : etcdDir store = Some dir).
    { unfold etcdDir. rewrite Hroot. simpl. by rewrite Hdir. }
    rewrite (snapshot_stage_dir w dataDir store dir st Hstore Hetcd).
    destruct (Children dir !! "next-internal-version") as [[n|]|]; [| done |].
    + destruct (String.eqb (Value n) "2"); [done|].
      unfold checkInternalVersionByDataDir4_log.
      by destruct (migrate_DecodeLog4FromFile w (logFile4 w dataDir)).
    + unfold checkInternalVersionByDataDir4_log.
      by destruct (migrate_DecodeLog4FromFile w (logFile4 w dataDir)).
  - intros Hno. eapply snapshot_stage_no_dir; [done.. |].
    by destruct Hno as [-> | ->].
Qed.

(** A store with the [_etcd] directory is inspected; one without the
    entry, and one with a null entry, stop the inspector. *)
Lemma etcd_directory_precondition_witness :
  (checkInternalVersionByDataDir4
     (Examples.worldLegacy (Ok (Some Examples.storeMigrated)) (Ok []))
     "/var/lib/etcd" Examples.st0).1
  ≠ Panicked (NilDereference "dir") ∧
  checkInternalVersionByDataDir4
    (Examples.worldLegacy (Ok (Some Examples.storeBare)) (Ok []))
    "/var/lib/etcd" Examples.st0
  = (Panicked (NilDereference "dir"), Examples.st0) ∧
  checkInternalVersionByDataDir4
    (Examples.worldLegacy (Ok (Some Examples.storeNullEtcd)) (Ok []))
    "/var/lib/etcd" Examples.st0
  = (Panicked (NilDereference "dir"), Examples.st0).
Proof.
  assert (Hstore : ∀ store,
            snapshotStore (Examples.worldLegacy (Ok (Some store)) (Ok []))
              "/var/lib/etcd" store).
  { intros store. by exists {| State := "state" |}. }
  split; [|split].
  - eapply (proj1 (etcd_directory_precondition _ _ _ _ Examples.st0
                     (Hstore Examples.storeMigrated) eq_refl)).
    eexists. reflexivity.
  - eapply (proj2 (etcd_directory_precondition _ _ _ _ Examples.st0
                     (Hstore Examples.storeBare) eq_refl)).
    left. reflexivity.
  - eapply (proj2 (etcd_directory_precondition _ _ _ _ Examples.st0
                     (Hstore Examples.storeNullEtcd) eq_refl)).
    right. reflexivity.
Defined.

(** C10, as it is stated, fails on a snapshot whose root has the entry
    [_etcd] with the value null: the snapshot decodes, the entry is among
    the children of the root, and the lookup still gives [nil], which the
    inspector dereferences. *)
Lemma null_etcd_entry_is_dereferenced :
  let w := Examples.worldLegacy (Ok (Some Examples.storeNullEtcd)) (Ok []) in
  snapshotStore w "/var/lib/etcd" Examples.storeNullEtcd ∧
  (∃ root, Root Examples.storeNullEtcd = Some root ∧
           is_Some (Children root !! "_etcd")) ∧
  checkInternalVersionByDataDir4 w "/var/lib/etcd" Examples.st0
  = (Panicked (NilDereference "dir"), Examples.st0).
Proof.
  intros w. split; [|split].
  - by exists {| State := "state" |}.
  - eexists. split; [reflexivity|]. exists None. reflexivity.
  - reflexivity.
Qed.

(** ** The branches of the resolver that ask the peers *)

Lemma Join_Contains (a : list string) (sep u : string) :
  u ∈ a → strings.Contains (strings.Join a sep) u.
Proof.
  induction a as [|x a IH]; intros Hin; [by apply elem_of_nil in Hin|].
  destruct a as [|y a].
  - apply list_elem_of_singleton in Hin as ->.
    exists "", "". simpl. by rewrite append_empty_r.
  - change (strings.Join (x :: y :: a) sep)
      with (x +:+ sep +:+ strings.Join (y :: a) sep).
    apply elem_of_cons in Hin as [-> | Hin].
    + by exists "", (sep +:+ strings.Join (y :: a) sep).
    + destruct (IH Hin) as (pre & post & ->).
      exists (x +:+ sep +:+ pre), post. by rewrite !append_assoc.
Qed.

Lemma error_names_urls (urls : list string) (u : string) :
  u ∈ urls →
  strings.Contains ("failed to get version from urls " +:+ fmt.v_strings urls) u.
Proof.
  intros Hin. destruct (Join_Contains urls " " u Hin) as (pre & post & Hjoin).
  exists ("failed to get version from urls [" +:+ pre), (post +:+ "]").
  unfold fmt.v_strings. rewrite Hjoin, !append_assoc. reflexivity.
Qed.

Section peers.

Variable w : World.

(** The probe always returns: a version without error, which is then
    [internalV1] or [internalV2], or an error. *)
Lemma probe_loop_returns c urls rest st :
  ∃ r ds,
    checkInternalVersionByClientURLs_loop w c urls rest st = (Done r, with_output st ds) ∧
    (r = (internalV1, None) ∨ r = (internalV2, None) ∨ ∃ err, r = (internalUnknown, Some err)).
Proof.
  revert st. induction rest as [|u rest IH]; intros st.
  - eexists _, []. rewrite with_output_nil. split; [reflexivity|]. right; right. by eexists.
  - assert (Hnext : ∀ d, ∃ r ds,
              checkInternalVersionByClientURLs_loop w c urls rest (with_output st [d])
              = (Done r, with_output st ds) ∧
              (r = (internalV1, None) ∨ r = (internalV2, None)
               ∨ ∃ err, r = (internalUnknown, Some err))).
    { intros d. destruct (IH (with_output st [d])) as (r & ds & Hrun & Hr).
      exists r, ([d] ++ ds). by rewrite <- with_output_app. }
    simpl. destruct (http_Get w c (u +:+ "/version")) as [[[b | err]] | err]; cbn [Body].
    + destruct (json_Unmarshal_map w b) as [m | err].
      * destruct (String.eqb (default "" (m !! "internalVersion")) "1").
        { eexists _, []. rewrite with_output_nil. split; [reflexivity|]. by left. }
        destruct (String.eqb (default "" (m !! "internalVersion")) "2").
        { eexists _, []. rewrite with_output_nil. split; [reflexivity|]. right; by left. }
        rewrite bind_Printf. apply Hnext.
      * rewrite bind_Printf. apply Hnext.
    + rewrite bind_Printf. apply Hnext.
    + rewrite bind_Printf. apply Hnext.
Qed.

Lemma probe_returns urls tls st :
  ∃ r ds,
    checkInternalVersionByClientURLs w urls tls st = (Done r, with_output st ds) ∧
    (r = (internalV1, None) ∨ r = (internalV2, None) ∨ ∃ err, r = (internalUnknown, Some err)).
Proof.
  unfold checkInternalVersionByClientURLs.
  destruct (newDefaultClient w tls) as [c | err]; [apply probe_loop_returns|].
  eexists _, []. rewrite with_output_nil. split; [reflexivity|]. right; right. by eexists.
Qed.

Lemma getClientURLs_loop_returns c peers urls st :
  ∃ urls' ds,
    getClientURLsByPeerURLs_loop w c peers urls st = (Done urls', with_output st ds).
Proof.
  revert urls st. induction peers as [|u peers IH]; intros urls st.
  - exists urls, []. by rewrite with_output_nil.
  - assert (Hnext : ∀ d, ∃ urls' ds,
              getClientURLsByPeerURLs_loop w c peers urls (with_output st [d])
              = (Done urls', with_output st ds)).
    { intros d. destruct (IH urls (with_output st [d])) as (urls' & ds & Hrun).
      exists urls', ([d] ++ ds). by rewrite <- with_output_app. }
    simpl. destruct (http_Get w c (u +:+ "/etcdURL")) as [[[b | err]] | err]; cbn [Body].
    + apply IH.
    + rewrite bind_Printf. apply Hnext.
    + rewrite bind_Printf. apply Hnext.
Qed.

Lemma getClientURLs_returns peers tls st :
  ∃ urls ds, getClientURLsByPeerURLs w peers tls st = (Done urls, with_output st ds).
Proof.
  unfold getClientURLsByPeerURLs.
  destruct (newDefaultClient w tls) as [c | err]; [apply getClientURLs_loop_returns|].
  rewrite bind_Printf. by exists [], [D_new_client_error err].
Qed.

(** The client URLs are collected peer by peer: a peer that answers
    [/etcdURL] gives one, any other costs a diagnostic. *)
Lemma getClientURLs_loop_collects c peers urls st :
  getClientURLsByPeerURLs_loop w c peers urls st
  = (Done (urls ++ omap (etcdURL w c) peers),
     with_output st (omap (etcdURL_failure w c) peers)).
Proof.
  revert urls st. induction peers as [|u peers IH]; intros urls st.
  - simpl. by rewrite app_nil_r, with_output_nil.
  - cbn [getClientURLsByPeerURLs_loop omap list_omap].
    unfold etcdURL at 1, etcdURL_failure at 1.
    destruct (http_Get w c (u +:+ "/etcdURL")) as [[[b | err]] | err]; cbn [Body].
    + rewrite IH. by rewrite <- app_assoc.
    + rewrite bind_Printf, IH. by rewrite with_output_app.
    + rewrite bind_Printf, IH. by rewrite with_output_app.
Qed.

Lemma getClientURLs_collects peers tls st :
  getClientURLsByPeerURLs w peers tls st
  = (Done match newDefaultClient w tls with
          | Ok c => omap (etcdURL w c) peers
          | Err _ => []
          end,
     with_output st
       match newDefaultClient w tls with
       | Ok c => omap (etcdURL_failure w c) peers
       | Err err => [D_new_client_error err]
       end).
Proof.
  unfold getClientURLsByPeerURLs.
  destruct (newDefaultClient w tls) as [c | err]; [|done].
  by rewrite getClientURLs_loop_collects.
Qed.

Variable fs : FlagSet.
Hypothesis Hcfg : parsedConfig fs.

(** [case wal.WALNotExist], step by step: the discovery service, the
    peers, their client URLs, then the probe over the client URLs that
    were learnt. *)
Lemma notExist_runs st :
  checkInternalVersion_notExist w fs st
  = bind (checkInternalVersionByClientURLs w (learntClientURLs w fs) (clientTLS fs))
         (λ r, match r with
               | (_, Some err) =>
                   bind (Printf (D_failed_check_through_peers err)) (λ _, ret internalV2)
               | (ver, None) => ret ver
               end)
         (with_output st (learningDiagnostics w fs)).
Proof.
  unfold checkInternalVersion_notExist, learntClientURLs, learningDiagnostics, candidatePeers.
  run_with ltac:(apply Lookup_registered; [done | key_in]).
  set (discovery := flagValue fs "discovery").
  assert (Hd : match getPeersFromDiscoveryURL w discovery with
               | Ok dpeers => ret dpeers
               | Err err => bind (Printf (D_failed_peers_from_discovery discovery err))
                                 (λ _, ret [])
               end st
               = (Done match getPeersFromDiscoveryURL w discovery with
                       | Ok dpeers => dpeers
                       | Err _ => []
                       end,
                  with_output st
                    match getPeersFromDiscoveryURL w discovery with
                    | Ok _ => []
                    | Err err => [D_failed_peers_from_discovery discovery err]
                    end)).
  { destruct (getPeersFromDiscoveryURL w discovery) as [dpeers | err]; [|done].
    by rewrite with_output_nil. }
  run_with ltac:(exact Hd).
  run_with ltac:(apply Lookup_registered; [done | key_in]).
  run_with ltac:(by apply peerTLSInfo_registered).
  run_with ltac:(by apply peerTLSInfo_registered).
  fold (peerTLS fs).
  run_with ltac:(apply getClientURLs_collects).
  run_with ltac:(by apply clientTLSInfo_registered). fold (clientTLS fs).
  destruct (newDefaultClient w (peerTLS fs)) as [pc | err];
    by rewrite with_output_app.
Qed.

(** [case wal.WALNotExist]: the candidates are collected, the probe is
    run on them, and its result decides. *)
Lemma notExist_returns st :
  ∃ urls ds,
    checkInternalVersion_notExist w fs st
    = bind (checkInternalVersionByClientURLs w urls
              {| CAFile := flagValue fs "ca-file";
                 CertFile := flagValue fs "cert-file";
                 KeyFile := flagValue fs "key-file" |})
           (λ r, match r with
                 | (_, Some err) =>
                     bind (Printf (D_failed_check_through_peers err)) (λ _, ret internalV2)
                 | (ver, None) => ret ver
                 end)
           (with_output st ds).
Proof.
  unfold checkInternalVersion_notExist.
  run_with ltac:(apply Lookup_registered; [done | key_in]).
  set (discovery := flagValue fs "discovery").
  assert (∃ dpeers ds1,
            match getPeersFromDiscoveryURL w discovery with
            | Ok dpeers => ret dpeers
            | Err err => bind (Printf (D_failed_peers_from_discovery discovery err))
                              (λ _, ret [])
            end st = (Done dpeers, with_output st ds1))
    as (dpeers & ds1 & Hd).
  { destruct (getPeersFromDiscoveryURL w discovery) as [dpeers | err].
    - exists dpeers, []. by rewrite with_output_nil.
    - by exists [], [D_failed_peers_from_discovery discovery err]. }
  run_with ltac:(exact Hd).
  run_with ltac:(apply Lookup_registered; [done | key_in]).
  run_with ltac:(by apply peerTLSInfo_registered).
  run_with ltac:(by apply peerTLSInfo_registered).
  match goal with
  | |- context [getClientURLsByPeerURLs w ?peers ?tls] =>
      destruct (getClientURLs_returns peers tls (with_output st ds1))
        as (urls & ds2 & Hurls)
  end.
  run_with ltac:(exact Hurls).
  run_with ltac:(by apply clientTLSInfo_registered).
  exists urls, (ds1 ++ ds2). by rewrite with_output_app.
Qed.

(** [if inStandbyMode]: the probe over the marker's client URLs
    decides. *)
Lemma v0_4_running_standby dataDir si st :
  runningStandby w dataDir si →
  checkInternalVersion_v0_4 w fs dataDir st
  = bind (checkInternalVersionByClientURLs w (ClientURLs si)
            {| CAFile := flagValue fs "ca-file";
               CertFile := flagValue fs "cert-file";
               KeyFile := flagValue fs "key-file" |})
         (λ r, match r with
               | (_, Some err) =>
                   bind (Printf (D_failed_check_through_peers err)) (λ _, ret internalV1)
               | (ver, None) =>
                   if String.eqb ver internalV2 then
                     bind (osutil_Unsetenv "ETCD_DISCOVERY")
                       (λ _, bind (append_os_Args ["-initial-cluster"; InitialCluster si])
                               (λ _, ret internalV2Proxy))
                   else ret ver
               end)
         st.
Proof.
  intros (err & Hdec & Herr & Hrun).
  unfold checkInternalVersion_v0_4. rewrite Hdec. cbv zeta. rewrite Hrun.
  assert (Hstandby : checkInternalVersion_standby w fs si st
                     = bind (checkInternalVersionByClientURLs w (ClientURLs si) (clientTLS fs))
                         (λ r, match r with
                               | (_, Some err) =>
                                   bind (Printf (D_failed_check_through_peers err))
                                     (λ _, ret internalV1)
                               | (ver, None) =>
                                   if String.eqb ver internalV2 then
                                     bind (osutil_Unsetenv "ETCD_DISCOVERY")
                                       (λ _, bind (append_os_Args
                                                     ["-initial-cluster"; InitialCluster si])
                                               (λ _, ret internalV2Proxy))
                                   else ret ver
                               end)
                         st).
  { unfold checkInternalVersion_standby.
    run_with ltac:(by apply clientTLSInfo_registered). done. }
  destruct err as [e|]; [|exact Hstandby]. by rewrite (Herr e).
Qed.

End peers.

(** C6.  When every candidate the probe is given is tried and none gives
    an answer, whoever else may be reachable, the probe returns the error
    "failed to get version from urls [...]", whose message holds every URL
    that was tried, having written one diagnostic per candidate.  The
    resolver then degrades by the branch the probe was called from.  When
    the data directory does not exist, the candidates are the client URLs
    learnt from the peers, and the resolver reports the failure of the
    probe and returns [internalV2].  In a v0.4 directory whose standby
    marker says [Running], the candidates are the client URLs of the
    marker, and the resolver reports the failure and returns
    [internalV1]. *)
Theorem exhausted_probe_degrades (w : World) :
  (∀ urls tls c ds st,
     newDefaultClient w tls = Ok c →
     Forall2 (skipped w c) urls ds →
     checkInternalVersionByClientURLs w urls tls st
     = (Done (internalUnknown,
              Some ("failed to get version from urls " +:+ fmt.v_strings urls)),
        with_output st ds) ∧
     ∀ u, u ∈ urls →
          strings.Contains ("failed to get version from urls " +:+ fmt.v_strings urls) u) ∧
  (∀ fs c ds st,
     parsedConfig fs →
     noV2Flag fs →
     flagValue fs "data-dir" ≠ "" →
     wal_DetectVersion w (flagValue fs "data-dir") = Ok WALNotExist →
     newDefaultClient w (clientTLS fs) = Ok c →
     Forall2 (skipped w c) (learntClientURLs w fs) ds →
     checkInternalVersion w fs st
     = (Done internalV2,
        with_output st
          (D_detected_version WALNotExist (flagValue fs "data-dir")
           :: learningDiagnostics w fs ++ ds
           ++ [D_failed_check_through_peers
                 ("failed to get version from urls "
                  +:+ fmt.v_strings (learntClientURLs w fs))]))) ∧
  (∀ fs si c ds st,
     parsedConfig fs →
     noV2Flag fs →
     flagValue fs "data-dir" ≠ "" →
     wal_DetectVersion w (flagValue fs "data-dir") = Ok WALv0_4 →
     runningStandby w (flagValue fs "data-dir") si →
     newDefaultClient w (clientTLS fs) = Ok c →
     Forall2 (skipped w c) (ClientURLs si) ds →
     checkInternalVersion w fs st
     = (Done internalV1,
        with_output st
          (D_detected_version WALv0_4 (flagValue fs "data-dir")
           :: ds
           ++ [D_failed_check_through_peers
                 ("failed to get version from urls "
                  +:+ fmt.v_strings (ClientURLs si))]))).
Proof.
  split; [|split].
  - intros urls tls c ds st Hclient Hds. split; [|apply error_names_urls].
    unfold checkInternalVersionByClientURLs. rewrite Hclient.
    by apply probe_loop_exhausted.
  - intros fs c ds st Hcfg Hno Hdir Hdet Hclient Hds.
    rewrite (checkInternalVersion_classified w fs Hcfg st WALNotExist Hno Hdir Hdet).
    cbv zeta iota. rewrite (notExist_runs w fs Hcfg).
    erewrite bind_Done; last first.
    { unfold checkInternalVersionByClientURLs. rewrite Hclient.
      by apply probe_loop_exhausted. }
    cbv beta iota. rewrite bind_Printf. unfold ret.
    rewrite !with_output_app. do 2 f_equal; simpl; by rewrite <- ?app_assoc.
  - intros fs si c ds st Hcfg Hno Hdir Hdet Hsi Hclient Hds.
    rewrite (checkInternalVersion_classified w fs Hcfg st WALv0_4 Hno Hdir Hdet).
    cbv zeta iota. rewrite (v0_4_running_standby w fs Hcfg _ si _ Hsi).
    erewrite bind_Done; last first.
    { unfold checkInternalVersionByClientURLs. fold (clientTLS fs). rewrite Hclient.
      by apply probe_loop_exhausted. }
    cbv beta iota. rewrite bind_Printf. unfold ret.
    by rewrite !with_output_app.
Qed.

(** The candidates are down and a node that is not among them answers:
    the probe over two URLs names both; without a data directory, with
    the one client URL learnt from the peer of the peers flag, the
    resolver returns [internalV2], although the node elsewhere reports
    ["1"]; with the standby marker it returns [internalV1], although the
    node elsewhere reports ["2"]. *)
Lemma exhausted_probe_degrades_witness :
  checkInternalVersionByClientURLs Examples.worldStandbyElsewhere
    ["http://10.0.0.1:4001"; "http://10.0.0.2:4001"] Examples.plainTLS Examples.st0
  = (Done (internalUnknown,
           Some "failed to get version from urls [http://10.0.0.1:4001 http://10.0.0.2:4001]"),
     with_output Examples.st0
       [D_failed_get_version "http://10.0.0.1:4001";
        D_failed_get_version "http://10.0.0.2:4001"]) ∧
  checkInternalVersion Examples.worldAbsentElsewhere (Examples.config Examples.argsPeers)
    Examples.st0
  = (Done internalV2,
     with_output Examples.st0
       [D_detected_version WALNotExist "/var/lib/etcd";
        D_failed_get_version "http://10.0.0.5:4001";
        D_failed_check_through_peers
          "failed to get version from urls [http://10.0.0.5:4001]"]) ∧
  checkInternalVersion Examples.worldStandbyElsewhere (Examples.config Examples.args0)
    Examples.st0
  = (Done internalV1,
     with_output Examples.st0
       [D_detected_version WALv0_4 "/var/lib/etcd";
        D_failed_get_version "http://10.0.0.1:4001";
        D_failed_check_through_peers
          "failed to get version from urls [http://10.0.0.1:4001]"]).
Proof.
  split; [|split].
  - apply (proj1 (exhausted_probe_degrades Examples.worldStandbyElsewhere)
             ["http://10.0.0.1:4001"; "http://10.0.0.2:4001"] Examples.plainTLS
             {| TLSClientConfig := None |}); [reflexivity|].
    constructor; [|constructor; [|constructor]];
      by apply (skipped_get _ _ _ "connection refused").
  - apply (proj1 (proj2 (exhausted_probe_degrades Examples.worldAbsentElsewhere))
             (Examples.config Examples.argsPeers) {| TLSClientConfig := None |}
             [D_failed_get_version "http://10.0.0.5:4001"] Examples.st0).
    + unfold parsedConfig. by_computation.
    + unfold noV2Flag. by_computation.
    + by vm_compute.
    + reflexivity.
    + reflexivity.
    + change (learntClientURLs Examples.worldAbsentElsewhere
                (Examples.config Examples.argsPeers))
        with ["http://10.0.0.5:4001"].
      constructor; [|constructor].
      by apply (skipped_get _ _ _ "connection refused").
  - apply (proj2 (proj2 (exhausted_probe_degrades Examples.worldStandbyElsewhere))
             (Examples.config Examples.args0) Examples.marker {| TLSClientConfig := None |}
             [D_failed_get_version "http://10.0.0.1:4001"] Examples.st0).
    + unfold parsedConfig. by_computation.
    + unfold noV2Flag. by_computation.
    + by vm_compute.
    + reflexivity.
    + exists None. split; [reflexivity|]. split; [done | reflexivity].
    + reflexivity.
    + constructor; [|constructor].
      by apply (skipped_get _ _ _ "connection refused").
Defined.

(** C7.  When the data directory does not exist and neither a discovery
    URL nor static peers are configured, the resolver returns
    [internalV2].  The empty peers flag still gives the one host-less peer
    ["<scheme>://"] (C9); the request to it fails, as [net/http] refuses a
    URL without a host, no client URL is learnt, and the probe over no
    candidate fails. *)
Theorem absent_without_peers_resolves_to_V2 (w : World) (fs : FlagSet) (st : state) :
  parsedConfig fs →
  noV2Flag fs →
  flagValue fs "data-dir" ≠ "" →
  wal_DetectVersion w (flagValue fs "data-dir") = Ok WALNotExist →
  flagValue fs "discovery" = "" →
  flagValue fs "peers" = "" →
  (∀ c tls, ∃ err, http_Get w c ((Scheme w tls +:+ "://") +:+ "/etcdURL") = Err err) →
  ∃ ds err,
    checkInternalVersion w fs st
    = (Done internalV2, with_output st (ds ++ [D_failed_check_through_peers err])).
Proof.
  intros Hcfg Hno Hdir Hdet Hdisc Hpeers Hhost.
  rewrite (checkInternalVersion_classified w fs Hcfg st WALNotExist Hno Hdir Hdet).
  cbv zeta iota. unfold checkInternalVersion_notExist.
  run_with ltac:(apply Lookup_registered; [done | key_in]).
  rewrite Hdisc. change (getPeersFromDiscoveryURL w "") with (@Ok (list string) []).
  cbv beta iota. rewrite bind_ret.
  run_with ltac:(apply Lookup_registered; [done | key_in]).
  rewrite Hpeers.
  run_with ltac:(by apply peerTLSInfo_registered).
  run_with ltac:(by apply peerTLSInfo_registered).
  set (ptls := {| CAFile := flagValue fs "peer-ca-file";
                  CertFile := flagValue fs "peer-cert-file";
                  KeyFile := flagValue fs "peer-key-file" |}).
  set (st1 := with_output st [D_detected_version WALNotExist (flagValue fs "data-dir")]).
  assert (∃ ds1, getClientURLsByPeerURLs w ([] ++ getPeersFromPeersFlag w "" ptls) ptls st1
                 = (Done [], with_output st1 ds1)) as [ds1 Hurls].
  { change (getPeersFromPeersFlag w "" ptls) with [Scheme w ptls +:+ "://"].
    unfold getClientURLsByPeerURLs.
    destruct (newDefaultClient w ptls) as [c | err].
    - destruct (Hhost c ptls) as [err Hget]. simpl. rewrite Hget.
      by exists [D_failed_get_etcdURL (Scheme w ptls +:+ "://")].
    - by exists [D_new_client_error err]. }
  run_with ltac:(exact Hurls).
  run_with ltac:(by apply clientTLSInfo_registered).
  match goal with
  | |- context [bind (checkInternalVersionByClientURLs w [] ?tls) _ ?st2] =>
      assert (∃ err, checkInternalVersionByClientURLs w [] tls st2
                     = (Done (internalUnknown, Some err), st2)) as [err Hprobe]
  end.
  { unfold checkInternalVersionByClientURLs.
    match goal with |- context [newDefaultClient w ?tls] =>
      destruct (newDefaultClient w tls) as [c | err] end; eexists; reflexivity. }
  run_with ltac:(exact Hprobe). rewrite bind_Printf.
  exists (D_detected_version WALNotExist (flagValue fs "data-dir") :: ds1), err.
  unfold ret, st1. rewrite !with_output_app. done.
Qed.

Lemma absent_without_peers_resolves_to_V2_witness :
  (checkInternalVersion Examples.worldAbsent (Examples.config Examples.args0) Examples.st0).1
  = Done internalV2.
Proof.
  destruct (absent_without_peers_resolves_to_V2 Examples.worldAbsent
              (Examples.config Examples.args0) Examples.st0)
    as (ds & err & Hrun).
  - unfold parsedConfig. by_computation.
  - unfold noV2Flag. by_computation.
  - by vm_compute.
  - reflexivity.
  - by vm_compute.
  - by vm_compute.
  - intros c tls. by exists "connection refused".
  - by rewrite Hrun.
Defined.

(** ** The launch *)

Section launch.

Variable w : World.

(** [parseConfig] reads the environment and changes nothing. *)
Lemma parseConfig_state args st : ∃ r, parseConfig w args st = (Done r, st).
Proof.
  unfold parseConfig.
  destruct (flag_Parse w _ args) as [fs err]. cbv zeta.
  assert (Henv : ∃ r, bind syscall_Environ
                        (λ envv, let '(fs, err) := flags_SetFlagsFromEnv w fs envv in
                                 match err with
                                 | Some e => ret (Err e)
                                 | None => ret (Ok fs)
                                 end) st = (Done r, st)).
  { unfold bind, syscall_Environ.
    destruct (flags_SetFlagsFromEnv w fs (environ st)) as [fs' [e|]]; by eexists. }
  destruct err as [e|]; [|exact Henv].
  destruct (negb (String.eqb e flag_ErrHelp)); [by eexists | exact Henv].
Qed.

(** From the resolved version to the end of the run. *)
Lemma StartDesiredVersion_launch binDir args st fs ver st1 p args' st2 :
  parseConfig w args st = (Done (Ok fs), st) →
  checkInternalVersion w fs st = (Done ver, st1) →
  StartDesiredVersion_switch w binDir args fs ver
    (with_output st1 [D_starting_version ver]) = (Done (p, args'), st2) →
  StartDesiredVersion w binDir args st
  = match syscall_Exec w p (p :: args') (environ st2) with
    | None =>
        (Replaced p (p :: args') (environ st2),
         with_output st2 [D_starting_with p args' (environ st2)])
    | Some err =>
        (Exit 1,
         with_output st2 [D_starting_with p args' (environ st2);
                          D_failed_to_execute p err])
    end.
Proof.
  intros Hparse Hver Hswitch. unfold StartDesiredVersion.
  run_with ltac:(exact Hparse).
  run_with ltac:(exact Hver).
  rewrite bind_Printf.
  run_with ltac:(exact Hswitch).
  unfold bind at 1. unfold syscall_Environ at 1. rewrite bind_Printf.
  unfold bind at 1. unfold syscall_Environ. unfold bind, Exec_or_error. simpl.
  destruct (syscall_Exec w p (p :: args') (environ st2)) as [err|]; [|done].
  unfold log_Fatalf, with_output. simpl. by rewrite <- app_assoc.
Qed.

(** [case internalV2Proxy] of the switch: the flag is appended whatever
    [os.Stat] says. *)
Lemma switch_V2Proxy binDir args fs st :
  parsedConfig fs →
  ∃ ds,
    StartDesiredVersion_switch w binDir args fs internalV2Proxy st
    = (Done (path_Join w [binDir; "2"; "etcd"], args ++ ["-proxy=on"]), with_output st ds) ∧
    (ds = [D_detected_standby_info; D_proxy_flag_must_be_added] ∨ ds = []).
Proof.
  intros Hcfg. unfold StartDesiredVersion_switch.
  change (String.eqb internalV2Proxy internalV1) with false.
  change (String.eqb internalV2Proxy internalV2) with false.
  change (String.eqb internalV2Proxy internalV2Proxy) with true. cbv iota.
  run_with ltac:(apply Lookup_registered; [done | key_in]).
  destruct (os_Stat w (standbyInfo4 w (flagValue fs "data-dir"))) as [err|].
  - exists [D_detected_standby_info; D_proxy_flag_must_be_added]. split; [|by left].
    unfold bind, Printf, ret, with_output. simpl. by rewrite <- app_assoc.
  - exists []. rewrite with_output_nil. by split; [|right].
Qed.

(** A resolved [internalV2Proxy] is started as [2/etcd] with the
    arguments of the command line and [-proxy=on]. *)
Lemma launch_V2Proxy binDir args st fs st1 :
  parseConfig w args st = (Done (Ok fs), st) →
  parsedConfig fs →
  checkInternalVersion w fs st = (Done internalV2Proxy, st1) →
  ∃ st',
    StartDesiredVersion w binDir args st
    = (match syscall_Exec w (path_Join w [binDir; "2"; "etcd"])
               (path_Join w [binDir; "2"; "etcd"] :: args ++ ["-proxy=on"])
               (environ st1) with
       | None => Replaced (path_Join w [binDir; "2"; "etcd"])
                   (path_Join w [binDir; "2"; "etcd"] :: args ++ ["-proxy=on"])
                   (environ st1)
       | Some _ => Exit 1
       end, st').
Proof.
  intros Hparse Hcfg Hver.
  destruct (switch_V2Proxy binDir args fs
              (with_output st1 [D_starting_version internalV2Proxy]) Hcfg)
    as (ds & Hswitch & _).
  rewrite (StartDesiredVersion_launch _ _ _ _ _ _ _ _ _ Hparse Hver Hswitch).
  change (environ (with_output (with_output st1 [D_starting_version internalV2Proxy]) ds))
    with (environ st1).
  destruct (syscall_Exec w _ _ (environ st1)); by eexists.
Qed.

End launch.

(** C3, amended.  When the data directory is classified as the v2.0 proxy
    variant, the resolver returns [internalV2Proxy], and [-proxy=on] is
    appended to the arguments the new process is started with, whether a
    standby marker file exists or not. *)
Theorem proxy_directory_launch (w : World) (binDir : string) (args : list string)
    (st : state) (fs : FlagSet) :
  parseConfig w args st = (Done (Ok fs), st) →
  parsedConfig fs →
  noV2Flag fs →
  flagValue fs "data-dir" ≠ "" →
  wal_DetectVersion w (flagValue fs "data-dir") = Ok WALv2_0Proxy →
  let p := path_Join w [binDir; "2"; "etcd"] in
  let argv := p :: args ++ ["-proxy=on"] in
  checkInternalVersion w fs st
  = (Done internalV2Proxy,
     with_output st [D_detected_version WALv2_0Proxy (flagValue fs "data-dir")]) ∧
  ∃ st',
    StartDesiredVersion w binDir args st
    = (match syscall_Exec w p argv (environ st) with
       | None => Replaced p argv (environ st)
       | Some _ => Exit 1
       end, st').
Proof.
  intros Hparse Hcfg Hno Hdir Hdet p argv.
  assert (Hver := checkInternalVersion_classified w fs Hcfg st WALv2_0Proxy Hno Hdir Hdet).
  cbv zeta iota in Hver. split; [done|].
  by apply (launch_V2Proxy w binDir args st fs _ Hparse Hcfg Hver).
Qed.

Lemma proxy_directory_launch_witness :
  (StartDesiredVersion Examples.worldProxy "/usr/libexec/etcd" Examples.args0 Examples.st0).1
  = Replaced "/usr/libexec/etcd/2/etcd"
      ["/usr/libexec/etcd/2/etcd"; "-data-dir=/var/lib/etcd"; "-proxy=on"]
      (environ Examples.st0).
Proof.
  destruct (proxy_directory_launch Examples.worldProxy "/usr/libexec/etcd" Examples.args0
              Examples.st0 (Examples.config_env Examples.args0 (environ Examples.st0)))
    as (_ & st' & Hstart).
  - reflexivity.
  - unfold parsedConfig. by_computation.
  - unfold noV2Flag. by_computation.
  - by vm_compute.
  - reflexivity.
  - by rewrite Hstart.
Defined.

(** C3, as it is stated, fails on a v2.0 proxy directory without a standby
    marker file: [os.Stat] of the marker fails, and still [-proxy=on] is in
    the arguments of the new process, and the diagnostic about the flag is
    written. *)
Lemma proxy_flag_without_standby_marker :
  let w := Examples.worldProxy in
  os_Stat w (standbyInfo4 w "/var/lib/etcd") = Some "no such file or directory" ∧
  ∃ envv st',
    StartDesiredVersion w "/usr/libexec/etcd" Examples.args0 Examples.st0
    = (Replaced "/usr/libexec/etcd/2/etcd"
         ["/usr/libexec/etcd/2/etcd"; "-data-dir=/var/lib/etcd"; "-proxy=on"] envv, st') ∧
    D_detected_standby_info ∈ output st'.
Proof.
  intros w. split; [done|]. eexists _, _. split; [by vm_compute|].
  simpl. do 2 right. by left.
Qed.

(** C2, what the code does.  In a v0.4 directory whose standby marker says
    [Running], when the probe over the marker's client URLs finds a peer
    that reports ["2"]: the resolver returns [internalV2Proxy], removes
    [ETCD_DISCOVERY] from the environment and appends [-initial-cluster]
    and the marker's initial cluster to [os.Args]; but the new process is
    started with the slice [args] that [StartDesiredVersion] was given,
    followed by [-proxy=on], and [os.Args] is not read again: the marker's
    initial cluster is not passed on. *)
Theorem standby_v2_launch (w : World) (binDir : string) (args : list string)
    (st : state) (fs : FlagSet) (si : StandbyInfo4) (c : http_Client)
    (pre post : list string) (u : string) (ds : list diag) :
  parseConfig w args st = (Done (Ok fs), st) →
  parsedConfig fs →
  noV2Flag fs →
  flagValue fs "data-dir" ≠ "" →
  wal_DetectVersion w (flagValue fs "data-dir") = Ok WALv0_4 →
  runningStandby w (flagValue fs "data-dir") si →
  newDefaultClient w (clientTLS fs) = Ok c →
  ClientURLs si = pre ++ u :: post →
  Forall2 (skipped w c) pre ds →
  reports w c u "2" →
  let p := path_Join w [binDir; "2"; "etcd"] in
  let argv := p :: args ++ ["-proxy=on"] in
  let envv := delete "ETCD_DISCOVERY" (environ st) in
  checkInternalVersion w fs st
  = (Done internalV2Proxy,
     {| output := output st ++ D_detected_version WALv0_4 (flagValue fs "data-dir") :: ds;
        environ := envv;
        os_Args := os_Args st ++ ["-initial-cluster"; InitialCluster si] |}) ∧
  ∃ st',
    StartDesiredVersion w binDir args st
    = (match syscall_Exec w p argv envv with
       | None => Replaced p argv envv
       | Some _ => Exit 1
       end, st').
Proof.
  intros Hparse Hcfg Hno Hdir Hdet Hsi Hclient Hurls Hskips Hrep p argv envv.
  assert (Hver : checkInternalVersion w fs st
                 = (Done internalV2Proxy,
                    {| output := output st
                                 ++ D_detected_version WALv0_4 (flagValue fs "data-dir") :: ds;
                       environ := envv;
                       os_Args := os_Args st ++ ["-initial-cluster"; InitialCluster si] |})).
  { rewrite (checkInternalVersion_classified w fs Hcfg st WALv0_4 Hno Hdir Hdet).
    cbv zeta iota. rewrite (v0_4_running_standby w fs Hcfg _ si _ Hsi).
    erewrite bind_Done; last first.
    { unfold checkInternalVersionByClientURLs. fold (clientTLS fs).
      rewrite Hclient, Hurls, (probe_loop_skips _ _ _ _ _ _ _ Hskips).
      apply probe_loop_answer; [exact Hrep | by right]. }
    cbv beta iota.
    change (String.eqb (if String.eqb "2" "1" then internalV1 else internalV2) internalV2)
      with true. cbv iota.
    unfold bind, osutil_Unsetenv, append_os_Args, ret, with_output. simpl.
    by rewrite <- app_assoc. }
  split; [exact Hver|].
  by apply (launch_V2Proxy w binDir args st fs _ Hparse Hcfg Hver).
Qed.

(** At the command line [-data-dir=/var/lib/etcd], with a marker whose
    initial cluster is [node1=http://10.0.0.1:7001]: the strings reach
    [os.Args] and not the new process. *)
Lemma standby_v2_launch_witness :
  let w := Examples.worldStandbyV2 in
  let fs := Examples.config_env Examples.args0 (environ Examples.st0) in
  let argv := ["/usr/libexec/etcd/2/etcd"; "-data-dir=/var/lib/etcd"; "-proxy=on"] in
  checkInternalVersion w fs Examples.st0
  = (Done internalV2Proxy,
     {| output := [D_detected_version WALv0_4 "/var/lib/etcd"];
        environ := ∅;
        os_Args := ["etcd-starter"; "-data-dir=/var/lib/etcd";
                    "-initial-cluster"; "node1=http://10.0.0.1:7001"] |}) ∧
  (StartDesiredVersion w "/usr/libexec/etcd" Examples.args0 Examples.st0).1
  = Replaced "/usr/libexec/etcd/2/etcd" argv ∅ ∧
  ("-initial-cluster" ∉ argv) ∧
  (InitialCluster Examples.marker ∉ argv).
Proof.
  intros w fs argv.
  destruct (standby_v2_launch w "/usr/libexec/etcd" Examples.args0 Examples.st0 fs
              Examples.marker {| TLSClientConfig := None |}
              [] [] "http://10.0.0.1:4001" [])
    as (Hver & st' & Hstart).
  - reflexivity.
  - unfold parsedConfig. by_computation.
  - unfold noV2Flag. by_computation.
  - by vm_compute.
  - reflexivity.
  - exists None. by vm_compute.
  - by vm_compute.
  - reflexivity.
  - constructor.
  - exists "internalVersion:2", {[ "internalVersion" := "2" ]}.
    split; [reflexivity | split; reflexivity].
  - split; [|split; [|split]].
    + rewrite Hver. by vm_compute.
    + rewrite Hstart. by vm_compute.
    + by_computation.
    + by_computation.
Defined.

(** ** Which failures end the run *)

Section degradation.

Variable w : World.
Variable fs : FlagSet.
Hypothesis Hcfg : parsedConfig fs.

Lemma notExist_degrades st :
  ∃ ver st', checkInternalVersion_notExist w fs st = (Done ver, st') ∧ startable ver.
Proof.
  destruct (notExist_returns w fs Hcfg st) as (urls & ds & ->).
  match goal with
  | |- context [bind (checkInternalVersionByClientURLs w urls ?tls) _ ?st1] =>
      destruct (probe_returns w urls tls st1) as (r & ds' & Hprobe & Hr)
  end.
  run_with ltac:(exact Hprobe).
  destruct Hr as [-> | [-> | [err ->]]].
  - eexists _, _. split; [reflexivity|]. unfold startable. by left.
  - eexists _, _. split; [reflexivity|]. unfold startable. right; by left.
  - eexists _, _. split; [reflexivity|]. unfold startable. right; by left.
Qed.

Lemma v0_4_degrades dataDir st :
  snapshotShape w dataDir →
  ∃ ver st', checkInternalVersion_v0_4 w fs dataDir st = (Done ver, st') ∧ startable ver.
Proof.
  intros Hshape.
  destruct (migrate_DecodeStandbyInfo4FromFile w (standbyInfo4 w dataDir))
    as [standbyInfo err] eqn:Hdec.
  assert (Hfailed : (∃ e, err = Some e ∧ os_IsNotExist w e = false) ∨
                    (∀ e, err = Some e → os_IsNotExist w e = true)).
  { destruct err as [e|]; [|by right].
    destruct (os_IsNotExist w e) eqn:He; [right | left; by exists e].
    by intros ? [= <-]. }
  destruct Hfailed as [(e & -> & He) | Herr].
  { unfold checkInternalVersion_v0_4. rewrite Hdec. cbv zeta. rewrite He.
    eexists _, _. split; [reflexivity|]. by left. }
  assert (Hrunning : (∃ si, standbyInfo = Some si ∧ Running si = true) ∨
                     (∀ si, standbyInfo = Some si → Running si = false)).
  { destruct standbyInfo as [si|]; [|by right].
    destruct (Running si) eqn:Hrun; [left; by exists si | right].
    by intros ? [= <-]. }
  destruct Hrunning as [(si & -> & Hrun) | Hnot].
  - rewrite (v0_4_running_standby w fs Hcfg dataDir si st); last by exists err.
    match goal with
    | |- context [bind (checkInternalVersionByClientURLs w ?urls ?tls) _ ?st1] =>
        destruct (probe_returns w urls tls st1) as (r & ds' & Hprobe & Hr)
    end.
    run_with ltac:(exact Hprobe).
    destruct Hr as [-> | [-> | [e ->]]].
    + eexists _, _. split; [reflexivity|]. by left.
    + eexists _, _. split; [reflexivity|]. do 2 right; by left.
    + eexists _, _. split; [reflexivity|]. by left.
  - rewrite v0_4_no_standby; last by exists standbyInfo, err.
    destruct (snapshotStage_total w dataDir Hshape) as [sf Hsf].
    destruct (logStage_total w dataDir) as [lf Hlf].
    unfold checkInternalVersion_dataDir4.
    run_with ltac:(by apply inspector_verdict).
    destruct sf as [| |e]; [| destruct lf as [| |e] |]; simpl;
      eexists _, _; (split; [reflexivity|]); unfold startable;
      first [by left | right; by left].
Qed.

Lemma checkInternalVersion_degrades st :
  snapshotShape w (flagValue fs "data-dir") →
  (∀ err, ¬ classificationFails w fs err) →
  ∃ ver st', checkInternalVersion w fs st = (Done ver, st') ∧ startable ver.
Proof.
  intros Hshape Hclass.
  destruct (v2Flag_cases fs) as [Hset | Hno].
  { rewrite checkInternalVersion_special by done.
    eexists _, _. split; [reflexivity|]. right; by left. }
  destruct (decide (flagValue fs "data-dir" = "")) as [Hdir | Hdir].
  { rewrite checkInternalVersion_no_dataDir by done.
    eexists _, _. split; [reflexivity|]. right; by left. }
  destruct (wal_DetectVersion w (flagValue fs "data-dir")) as [dataver | err] eqn:Hdet;
    last by destruct (Hclass err).
  rewrite (checkInternalVersion_classified w fs Hcfg st dataver Hno Hdir Hdet).
  cbv zeta. destruct dataver.
  - eexists _, _. split; [reflexivity|]. right; by left.
  - apply notExist_degrades.
  - by apply v0_4_degrades.
  - eexists _, _. split; [reflexivity|]. right; by left.
  - eexists _, _. split; [reflexivity|]. do 2 right; by left.
  - eexists _, _. split; [reflexivity|]. right; by left.
Qed.

End degradation.

(** C8, amended.  For a parsed configuration and a data directory whose
    latest v0.4 snapshot, if it decodes, has a root, an [_etcd] node under
    the root, and no null [next-internal-version] entry in that node
    ([snapshotShape]), exactly one failure of a collaborator ends the run
    of the resolver: when the data directory cannot be classified
    ([wal.DetectVersion] returns an error) the resolver writes the
    diagnostic and exits through [log.Fatalf].  In every other case,
    whatever errors the decoders of the standby marker, the snapshot and
    the log, the discovery service and the peers return, the resolver
    returns one of [internalV1], [internalV2] and [internalV2Proxy]. *)
Theorem only_classification_failure_is_fatal (w : World) (fs : FlagSet) (st : state) :
  parsedConfig fs →
  snapshotShape w (flagValue fs "data-dir") →
  (∀ err, classificationFails w fs err →
     checkInternalVersion w fs st
     = (Exit 1, with_output st [D_failed_to_detect (flagValue fs "data-dir") err])) ∧
  ((∀ err, ¬ classificationFails w fs err) →
   ∃ ver st',
     checkInternalVersion w fs st = (Done ver, st') ∧
     ver ∈ [internalV1; internalV2; internalV2Proxy]).
Proof.
  intros Hcfg Hshape. split.
  - intros err (Hno & Hdir & Hdet). by apply checkInternalVersion_unclassified.
  - intros Hclass. by apply checkInternalVersion_degrades.
Qed.

(** A directory that cannot be read ends the run; a v0.4 directory whose
    log is broken, with no network, does not. *)
Lemma only_classification_failure_is_fatal_witness :
  checkInternalVersion Examples.worldUnreadable (Examples.config Examples.args0) Examples.st0
  = (Exit 1,
     with_output Examples.st0 [D_failed_to_detect "/var/lib/etcd" "permission denied"]) ∧
  ∃ ver st',
    checkInternalVersion
      (Examples.worldLegacy (Err "unexpected EOF") (Err "unexpected EOF"))
      (Examples.config Examples.args0) Examples.st0
    = (Done ver, st') ∧
    ver ∈ [internalV1; internalV2; internalV2Proxy].
Proof.
  assert (Hcfg : parsedConfig (Examples.config Examples.args0))
    by (unfold parsedConfig; by_computation).
  assert (Hno : noV2Flag (Examples.config Examples.args0))
    by (unfold noV2Flag; by_computation).
  split.
  - eapply (proj1 (only_classification_failure_is_fatal Examples.worldUnreadable
                     (Examples.config Examples.args0) Examples.st0 Hcfg _)
                  "permission denied").
    split; [done|]. split; by vm_compute.
  - eapply (proj2 (only_classification_failure_is_fatal
                     (Examples.worldLegacy (Err "unexpected EOF") (Err "unexpected EOF"))
                     (Examples.config Examples.args0) Examples.st0 Hcfg _)).
    intros err (_ & _ & Hdet). by vm_compute in Hdet.
  Unshelve.
  + intros store (snap4 & Hsnap & _). by vm_compute in Hsnap.
  + intros store (snap4 & Hsnap & _). by vm_compute in Hsnap.
Defined.

(** C8, as it is stated, fails when the data directory cannot be
    classified: the error of [wal.DetectVersion] is not turned into a
    version; the resolver, and with it [StartDesiredVersion], exits with
    status 1 and nothing is started. *)
Lemma classification_error_exits :
  let w := Examples.worldUnreadable in
  wal_DetectVersion w "/var/lib/etcd" = Err "permission denied" ∧
  checkInternalVersion w (Examples.config Examples.args0) Examples.st0
  = (Exit 1,
     with_output Examples.st0 [D_failed_to_detect "/var/lib/etcd" "permission denied"]) ∧
  StartDesiredVersion w "/usr/libexec/etcd" Examples.args0 Examples.st0
  = (Exit 1,
     with_output Examples.st0 [D_failed_to_detect "/var/lib/etcd" "permission denied"]).
Proof. intros w. split; [done|]. split; by vm_compute. Qed.
